(** * WAF assessment workbook generator

    A shallow embedding of [scripts/generate_waf_assessment_excel.py].

    The script reads a markdown document and a CSV of support cases and
    assembles an openpyxl workbook of five sheets, which it saves next to
    its inputs.  The embedding follows the script statement by statement:
    - Python values that reach a cell are [pyval]s, Python [str] is a Rocq
      [string] (the UTF-8 bytes of the text), Python [int] is [Z];
    - a [dict] is an insertion-ordered association list, as [csv.DictReader]
      builds it (key [None] is the reader's [restkey]);
    - a worksheet is a record around the map from (row, column) to cells
      that openpyxl keeps, together with the freeze pane, column widths,
      row heights, conditional formats, tables and auto-filter the script
      sets;
    - the file system is a finite map from paths to nodes, threaded through
      an exception monad whose state survives a raise.

    Interface of the libraries.  [csv.reader] (the tokenizer of the csv
    module) is a parameter: it maps the text of a file to its rows of
    fields.  [csv.DictReader] is embedded from the csv module.  An openpyxl
    cell holds the Python value assigned to it; the limits of the xlsx
    format that openpyxl enforces on its own (column index, row index,
    string length, characters and types a cell accepts) are not part of
    this development.  The text of a file is the [str] that Python's text
    mode yields for it. *)

From Stdlib Require Import ZArith String Ascii DecimalString.
From stdpp Require Import base gmap strings list fin_maps.

Local Open Scope string_scope.
Local Open Scope Z_scope.
Local Open Scope list_scope.

(** ** Python values and dictionaries *)

Inductive pyval : Type :=
  | VNone
  | VStr (s : string)
  | VInt (z : Z)
  | VList (l : list string).

#[global] Instance pyval_eq_dec : EqDecision pyval.
Proof. solve_decision. Defined.

(** [str(n)] and [int(s)] for decimal integers. *)
Definition str_int (z : Z) : string := NilZero.string_of_int (Z.to_int z).

Definition int_str (s : string) : option Z :=
  Z.of_int <$> NilZero.int_of_string s.

(** Keys of a record of [csv.DictReader]: a field name, or [None] for the
    surplus fields of a long row. *)
Definition key : Type := option string.

(** A Python [dict]: keys are unique and keep their insertion order. *)
Definition dict : Type := list (key * pyval).

(** [d[k] = v] *)
Fixpoint dict_set (k : key) (v : pyval) (d : dict) : dict :=
  match d with
  | [] => [(k, v)]
  | (k', v') :: d' =>
      if decide (k' = k) then (k, v) :: d' else (k', v') :: dict_set k v d'
  end.

Fixpoint dict_lookup (k : key) (d : dict) : option pyval :=
  match d with
  | [] => None
  | (k', v') :: d' => if decide (k' = k) then Some v' else dict_lookup k d'
  end.

(** [d.get(k, dflt)] *)
Definition dict_get (k : key) (dflt : pyval) (d : dict) : pyval :=
  default dflt (dict_lookup k d).

(** [list(d.keys())] *)
Definition dict_keys (d : dict) : list key := d.*1.

(** [dict(pairs)] *)
Definition dict_of_pairs (pairs : list (key * pyval)) : dict :=
  foldl (λ d kv, dict_set kv.1 kv.2 d) [] pairs.

(** ** csv.DictReader *)

(** The body of [DictReader.__next__] for one non-blank row:
    [d = dict(zip(fieldnames, row))], then the surplus of a long row under
    [restkey = None], or [restval = None] for the fields a short row
    lacks. *)
Definition row_to_dict (fieldnames row : list string) : dict :=
  let d := dict_of_pairs (zip (Some <$> fieldnames) (VStr <$> row)) in
  let lf := length fieldnames in
  let lr := length row in
  if decide (lf < lr)%nat then dict_set None (VList (drop lf row)) d
  else if decide (lr < lf)%nat then
    foldl (λ d k, dict_set (Some k) VNone d) d (drop lr fieldnames)
  else d.

(** [list(csv.DictReader(f))] over the rows the tokenizer yields: the
    first row gives the field names, blank rows after it are skipped. *)
Definition DictReader (rows : list (list string)) : list dict :=
  match rows with
  | [] => []
  | fieldnames :: rest =>
      row_to_dict fieldnames <$> filter (λ row, row ≠ []) rest
  end.

(** ** openpyxl: styles, cells, worksheets *)

Record Font := { size : option Z; bold : bool }.
Record PatternFill := { fill_type : string; fgColor : string }.
Record Alignment :=
  { horizontal : option string; vertical : option string; wrap_text : option bool }.

Record Cell :=
  { value : pyval;
    font : option Font;
    fill : option PatternFill;
    alignment : option Alignment }.

(** [Cell(ws, row, column, value)] *)
Definition new_cell (v : pyval) : Cell :=
  {| value := v; font := None; fill := None; alignment := None |}.

Definition set_value (v : pyval) (c : Cell) : Cell :=
  {| value := v; font := font c; fill := fill c; alignment := alignment c |}.
Definition set_font (f : Font) (c : Cell) : Cell :=
  {| value := value c; font := Some f; fill := fill c; alignment := alignment c |}.
Definition set_fill (f : PatternFill) (c : Cell) : Cell :=
  {| value := value c; font := font c; fill := Some f; alignment := alignment c |}.
Definition set_alignment (a : Alignment) (c : Cell) : Cell :=
  {| value := value c; font := font c; fill := fill c; alignment := Some a |}.

Record CellIsRule :=
  { operator : string; formula : list string; rule_fill : PatternFill }.

Record TableStyleInfo :=
  { style_name : string;
    showFirstColumn : bool;
    showLastColumn : bool;
    showRowStripes : bool;
    showColumnStripes : bool }.

Record Table :=
  { displayName : string; ref : string; tableStyleInfo : TableStyleInfo }.

(** Cells are keyed by (row, column), both counted from 1. *)
Record Worksheet :=
  { title : string;
    freeze_panes : option string;
    cells : gmap (Z * Z) Cell;
    current_row : Z;
    column_widths : gmap string Z;
    row_heights : gmap Z Z;
    conditional_formatting : list (string * CellIsRule);
    tables : list Table;
    auto_filter_ref : option string }.

(** A sheet as [Workbook()] and [wb.create_sheet(title)] make it. *)
Definition new_sheet (t : string) : Worksheet :=
  {| title := t; freeze_panes := None; cells := ∅; current_row := 0;
     column_widths := ∅; row_heights := ∅; conditional_formatting := [];
     tables := []; auto_filter_ref := None |}.

Definition with_title (t : string) (ws : Worksheet) : Worksheet :=
  {| title := t; freeze_panes := freeze_panes ws; cells := cells ws;
     current_row := current_row ws; column_widths := column_widths ws;
     row_heights := row_heights ws;
     conditional_formatting := conditional_formatting ws;
     tables := tables ws; auto_filter_ref := auto_filter_ref ws |}.

Definition with_freeze_panes (a : string) (ws : Worksheet) : Worksheet :=
  {| title := title ws; freeze_panes := Some a; cells := cells ws;
     current_row := current_row ws; column_widths := column_widths ws;
     row_heights := row_heights ws;
     conditional_formatting := conditional_formatting ws;
     tables := tables ws; auto_filter_ref := auto_filter_ref ws |}.

Definition with_cells (m : gmap (Z * Z) Cell) (r : Z) (ws : Worksheet) : Worksheet :=
  {| title := title ws; freeze_panes := freeze_panes ws; cells := m;
     current_row := r; column_widths := column_widths ws;
     row_heights := row_heights ws;
     conditional_formatting := conditional_formatting ws;
     tables := tables ws; auto_filter_ref := auto_filter_ref ws |}.

Definition with_column_widths (w : gmap string Z) (ws : Worksheet) : Worksheet :=
  {| title := title ws; freeze_panes := freeze_panes ws; cells := cells ws;
     current_row := current_row ws; column_widths := w;
     row_heights := row_heights ws;
     conditional_formatting := conditional_formatting ws;
     tables := tables ws; auto_filter_ref := auto_filter_ref ws |}.

Definition with_row_heights (h : gmap Z Z) (ws : Worksheet) : Worksheet :=
  {| title := title ws; freeze_panes := freeze_panes ws; cells := cells ws;
     current_row := current_row ws; column_widths := column_widths ws;
     row_heights := h;
     conditional_formatting := conditional_formatting ws;
     tables := tables ws; auto_filter_ref := auto_filter_ref ws |}.

Definition with_conditional_formatting (l : list (string * CellIsRule))
    (ws : Worksheet) : Worksheet :=
  {| title := title ws; freeze_panes := freeze_panes ws; cells := cells ws;
     current_row := current_row ws; column_widths := column_widths ws;
     row_heights := row_heights ws; conditional_formatting := l;
     tables := tables ws; auto_filter_ref := auto_filter_ref ws |}.

Definition with_tables (l : list Table) (ws : Worksheet) : Worksheet :=
  {| title := title ws; freeze_panes := freeze_panes ws; cells := cells ws;
     current_row := current_row ws; column_widths := column_widths ws;
     row_heights := row_heights ws;
     conditional_formatting := conditional_formatting ws;
     tables := l; auto_filter_ref := auto_filter_ref ws |}.

Definition with_auto_filter (a : string) (ws : Worksheet) : Worksheet :=
  {| title := title ws; freeze_panes := freeze_panes ws; cells := cells ws;
     current_row := current_row ws; column_widths := column_widths ws;
     row_heights := row_heights ws;
     conditional_formatting := conditional_formatting ws;
     tables := tables ws; auto_filter_ref := Some a |}.

(** [openpyxl.utils.get_column_letter]: 1 is A, 26 is Z, 27 is AA.  The
    loop divides by 26 and borrows on an exact division; the index bounds
    its number of turns. *)
Fixpoint column_letters (fuel : nat) (col_idx : Z) (letters : string) : string :=
  match fuel with
  | O => letters
  | S fuel' =>
      if decide (0 < col_idx) then
        let q := col_idx `div` 26 in
        let r := col_idx `mod` 26 in
        let q' := if decide (r = 0) then q - 1 else q in
        let r' := if decide (r = 0) then 26 else r in
        column_letters fuel' q' (String (ascii_of_nat (Z.to_nat (r' + 64))) letters)
      else letters
  end.

Definition get_column_letter (col_idx : Z) : string :=
  column_letters (Z.to_nat col_idx) col_idx EmptyString.

(** The inverse, for the column part of an address such as [A7]. *)
Definition letter_value (a : ascii) : option Z :=
  let n := Z.of_nat (nat_of_ascii a) in
  if decide (65 ≤ n ≤ 90)%Z then Some (n - 64) else None.

Fixpoint column_index (acc : Z) (s : string) : option (Z * string) :=
  match s with
  | EmptyString => Some (acc, EmptyString)
  | String a s' =>
      match letter_value a with
      | Some d => column_index (acc * 26 + d) s'
      | None => Some (acc, s)
      end
  end.

(** [coordinate_to_tuple]: an address is column letters followed by a
    positive row number; anything else is not an address. *)
Definition coordinate_to_tuple (addr : string) : option (Z * Z) :=
  '(col, digits) ← column_index 0 addr;
  row ← int_str digits;
  if decide (0 < col ∧ 0 < row) then Some (row, col) else None.

(** [ws._get_cell(row, column)]: the cell at a position, made on first
    access; making a cell moves the append cursor down to its row. *)
Definition get_cell (rc : Z * Z) (ws : Worksheet) : Cell :=
  default (new_cell VNone) (cells ws !! rc).

Definition update_cell (rc : Z * Z) (f : Cell → Cell) (ws : Worksheet) : Worksheet :=
  with_cells (<[rc := f (get_cell rc ws)]> (cells ws))
             (match cells ws !! rc with
              | Some _ => current_row ws
              | None => current_row ws `max` rc.1
              end) ws.

(** [ws.append(values)]: a fresh cell per value on the row under the
    cursor, from column 1. *)
Fixpoint put_row (r c : Z) (values : list pyval) (m : gmap (Z * Z) Cell)
    : gmap (Z * Z) Cell :=
  match values with
  | [] => m
  | v :: values' => put_row r (c + 1) values' (<[(r, c) := new_cell v]> m)
  end.

Definition append (values : list pyval) (ws : Worksheet) : Worksheet :=
  let row_idx := current_row ws + 1 in
  with_cells (put_row row_idx 1 values (cells ws)) row_idx ws.

(** [for item in items: ws.append(g(item))] *)
Definition append_all {A : Type} (g : A → list pyval) (items : list A)
    (ws : Worksheet) : Worksheet :=
  foldl (λ ws item, append (g item) ws) ws items.

(** [range(start, stop)] *)
Definition range (start stop : Z) : list Z := seqZ start (stop - start).

(** [for c in range(c1, c2 + 1): f(ws.cell(row=r, column=c))] *)
Definition style_row (r c1 c2 : Z) (f : Cell → Cell) (ws : Worksheet) : Worksheet :=
  foldl (λ ws c, update_cell (r, c) f ws) ws (range c1 (c2 + 1)).

(** [for row in ws.iter_rows(min_row, max_row, min_col, max_col):
       for cell in row: f(cell)] *)
Definition style_rows (min_row max_row min_col max_col : Z) (f : Cell → Cell)
    (ws : Worksheet) : Worksheet :=
  foldl (λ ws r, style_row r min_col max_col f ws) ws (range min_row (max_row + 1)).

(** [ws.dimensions]: the bounding range of the cells a sheet holds. *)
Definition range_string (start_col start_row end_col end_row : Z) : string :=
  get_column_letter start_col +:+ str_int start_row +:+ ":" +:+
  get_column_letter end_col +:+ str_int end_row.

Definition max_of (x : Z) (l : list Z) : Z := foldr Z.max x l.
Definition min_of (x : Z) (l : list Z) : Z := foldr Z.min x l.

Definition calculate_dimension (ws : Worksheet) : string :=
  match (map_to_list (cells ws)).*1 with
  | [] => "A1:A1"
  | (r, c) :: ks =>
      range_string (min_of c ks.*2) (min_of r ks.*1) (max_of c ks.*2) (max_of r ks.*1)
  end.

(** What a reader of the sheet sees: the value held at each position. *)
Definition values_of (ws : Worksheet) : gmap (Z * Z) pyval := value <$> cells ws.

Definition cell_value (ws : Worksheet) (r c : Z) : option pyval :=
  values_of ws !! (r, c).

(** ** Exceptions *)

Inductive exn : Type :=
  | FileNotFoundError (msg : string)
  | IsADirectoryError (msg : string)
  | NotADirectoryError (msg : string)
  | FileExistsError (msg : string)
  | UnicodeDecodeError (msg : string)
  | ValueError (msg : string).

(** A computation that returns or raises. *)
Definition result (A : Type) : Type := (exn + A)%type.

#[global] Instance result_ret : MRet result := λ A x, inr x.
#[global] Instance result_bind : MBind result := λ A B f m,
  match m with
  | inl e => inl e
  | inr x => f x
  end.

(** [ws[addr] = v] and [ws[addr].attr = x] *)
Definition setitem (addr : string) (v : pyval) (ws : Worksheet) : result Worksheet :=
  match coordinate_to_tuple addr with
  | Some rc => inr (update_cell rc (set_value v) ws)
  | None => inl (ValueError addr)
  end.

Definition style_at (addr : string) (f : Cell → Cell) (ws : Worksheet) : result Worksheet :=
  match coordinate_to_tuple addr with
  | Some rc => inr (update_cell rc f ws)
  | None => inl (ValueError addr)
  end.

(** [for x in l: s = body(x, s)], stopping at the first raise. *)
Fixpoint for_each {A S : Type} (l : list A) (body : A → S → result S) (s : S)
    : result S :=
  match l with
  | [] => inr s
  | x :: l' =>
      match body x s with
      | inl e => inl e
      | inr s' => for_each l' body s'
      end
  end.

(** ** The script's helpers *)

Definition _set_col_widths (widths : list (Z * Z)) (ws : Worksheet) : Worksheet :=
  foldl (λ ws cw, with_column_widths
                    (<[get_column_letter cw.1 := cw.2]> (column_widths ws)) ws)
        ws widths.

Definition _apply_table (table_name : string)
    (start_row start_col end_row end_col : Z) (ws : Worksheet) : Worksheet :=
  let ref := range_string start_col start_row end_col end_row in
  let style := {| style_name := "TableStyleMedium9";
                  showFirstColumn := false;
                  showLastColumn := false;
                  showRowStripes := true;
                  showColumnStripes := false |} in
  let table := {| displayName := table_name; ref := ref; tableStyleInfo := style |} in
  with_tables (tables ws ++ [table]) ws.

(** [ws.conditional_formatting.add(range, rule)] *)
Definition add_conditional_formatting (range_ref : string) (rule : CellIsRule)
    (ws : Worksheet) : Worksheet :=
  with_conditional_formatting (conditional_formatting ws ++ [(range_ref, rule)]) ws.

(** [len(l)] as a Python integer. *)
Definition len {A} (l : list A) : Z := Z.of_nat (length l).

(** ** Dates *)

Record date := { year : Z; month : Z; day : Z }.

(** The reading of the clock, in microseconds since the epoch (UTC). *)
Definition datetime : Type := Z.

Fixpoint zeros (n : nat) : string :=
  match n with
  | O => EmptyString
  | S n' => String "0" (zeros n')
  end.

(** ["%0wd" % z] for a non-negative [z]. *)
Definition zfill (w : nat) (z : Z) : string :=
  let s := str_int z in
  zeros (w - String.length s) +:+ s.

(** [date.isoformat()]: YYYY-MM-DD. *)
Definition isoformat (d : date) : string :=
  zfill 4 (year d) +:+ "-" +:+ zfill 2 (month d) +:+ "-" +:+ zfill 2 (day d).

(** ** The five sheets of [build_workbook] *)

Definition header_fill : PatternFill := {| fill_type := "solid"; fgColor := "F2F2F2" |}.
Definition header_font : Font := {| size := None; bold := true |}.
Definition wrap : Alignment :=
  {| horizontal := None; vertical := Some "top"; wrap_text := Some true |}.
Definition top : Alignment :=
  {| horizontal := None; vertical := Some "top"; wrap_text := None |}.
Definition centered : Alignment :=
  {| horizontal := Some "center"; vertical := None; wrap_text := None |}.
Definition header_alignment : Alignment :=
  {| horizontal := Some "center"; vertical := Some "top"; wrap_text := Some true |}.

(** The header styling loop of the Scores sheet. *)
Definition style_scores_header (c : Cell) : Cell :=
  set_alignment centered (set_font header_font (set_fill header_fill c)).

(** The header styling loop of the other sheets. *)
Definition style_header (c : Cell) : Cell :=
  set_alignment header_alignment (set_font header_font (set_fill header_fill c)).

(** Sheet: Overview (the active sheet of the new workbook). *)
Definition Overview_sheet (architecture_md : string) (assessment_date : date)
    (ws : Worksheet) : result Worksheet :=
  let ws := with_title "Overview" ws in
  let ws := with_freeze_panes "A6" ws in
  ws ← setitem "A1" (VStr "Well-Architected Framework (WAF) Assessment") ws;
  ws ← style_at "A1" (set_font {| size := Some 16; bold := true |}) ws;
  ws ← setitem "A3" (VStr "Assessment Date") ws;
  ws ← setitem "B3" (VStr (isoformat assessment_date)) ws;
  ws ← setitem "A4" (VStr "Architecture Summary") ws;
  ws ← setitem "B4" (VStr "Hub-and-spoke AKS with Application Gateway → ILB → Traefik, Private Link, Azure Firewall, Bastion, and Azure Monitor") ws;
  ws ← for_each ["A3"; "A4"]
         (λ addr, style_at addr (set_font {| size := None; bold := true |})) ws;
  ws ← setitem "A6" (VStr "Source Architecture Document (excerpt)") ws;
  ws ← style_at "A6" (set_font {| size := None; bold := true |}) ws;
  ws ← setitem "A7" (VStr architecture_md) ws;
  ws ← style_at "A7" (set_alignment wrap) ws;
  let ws := _set_col_widths [(1, 28); (2, 120)] ws in
  mret (with_row_heights (<[7 := 320]> (row_heights ws)) ws).

(** Sheet: Scores. *)
Definition scores : list (string * Z * string) :=
  [ ("Reliability", 68, "Fair");
    ("Security", 74, "Good");
    ("Cost Optimization", 64, "Fair");
    ("Operational Excellence", 66, "Fair");
    ("Performance Efficiency", 78, "Good");
    ("Overall", 70, "Good baseline, needs hardening") ].

Definition score_row (row : string * Z * string) : list pyval :=
  [VStr row.1.1; VInt row.1.2; VStr row.2].

Definition score_rules : list CellIsRule :=
  [ {| operator := "lessThan"; formula := ["60"];
       rule_fill := {| fill_type := "solid"; fgColor := "F8D7DA" |} |};
    {| operator := "between"; formula := ["60"; "79"];
       rule_fill := {| fill_type := "solid"; fgColor := "FFF3CD" |} |};
    {| operator := "greaterThanOrEqual"; formula := ["80"];
       rule_fill := {| fill_type := "solid"; fgColor := "D1E7DD" |} |} ].

Definition Scores_sheet : Worksheet :=
  let ws := new_sheet "Scores" in
  let ws := with_freeze_panes "A2" ws in
  let ws := append [VStr "Pillar"; VStr "Score"; VStr "Status"] ws in
  let ws := style_row 1 1 3 style_scores_header ws in
  let ws := append_all score_row scores ws in
  let ws := _set_col_widths [(1, 28); (2, 10); (3, 35)] ws in
  let ws := foldl (λ ws r,
                     update_cell (r, 3) (set_alignment top)
                       (update_cell (r, 2) (set_alignment centered)
                          (update_cell (r, 1) (set_alignment top) ws)))
                  ws (range 2 (2 + len scores)) in
  let ws := foldl (λ ws rule,
                     add_conditional_formatting
                       ("B2:B" +:+ str_int (1 + len scores)) rule ws)
                  ws score_rules in
  _apply_table "ScoresTable" 1 1 (1 + len scores) 3 ws.

(** Sheet: Recommendations. *)
Definition rec_headers : list string :=
  [ "ID";
    "Recommendation";
    "Primary Pillar(s)";
    "Why / Evidence";
    "Risk if not addressed";
    "Priority";
    "Estimated Effort";
    "Related Support Cases";
    "Key Docs" ].

(** One entry of the [recommendations] literal; the fields are the keys of
    the Python dict. *)
Record recommendation :=
  { rec_id : string;
    rec_title : string;
    rec_pillars : string;
    rec_why : string;
    rec_risk : string;
    rec_priority : string;
    rec_effort : string;
    rec_cases : string;
    rec_docs : string }.

Definition recommendations : list recommendation :=
  [ {| rec_id := "REC-01";
       rec_title := "Standardize ingress routing and health probes end-to-end (App Gateway → ILB → Traefik)";
       rec_pillars := "Reliability, Operational Excellence";
       rec_why := "Repeated ingress/probe/routing misconfig issues leading to 502s and backend unhealthy signals.";
       rec_risk := "Intermittent or complete service outage; slow triage due to multi-layer routing.";
       rec_priority := "High";
       rec_effort := "1–3 days";
       rec_cases := "120012346; 120012353";
       rec_docs := "https://learn.microsoft.com/azure/application-gateway/application-gateway-probe-overview | https://learn.microsoft.com/azure/architecture/reference-architectures/containers/aks-baseline" |};
    {| rec_id := "REC-02";
       rec_title := "Automate TLS certificate lifecycle for Application Gateway using Key Vault";
       rec_pillars := "Reliability, Security";
       rec_why := "Certificate expiry caused TLS handshake failures and outage of public endpoints.";
       rec_risk := "Public endpoint downtime and incident escalation during renewal windows.";
       rec_priority := "Critical";
       rec_effort := "0.5–2 days";
       rec_cases := "120012347";
       rec_docs := "https://learn.microsoft.com/azure/key-vault/certificates/about-certificates | https://learn.microsoft.com/azure/application-gateway/key-vault-certs" |};
    {| rec_id := "REC-03";
       rec_title := "Harden Private Link + Private DNS zone management (Key Vault, ACR)";
       rec_pillars := "Security, Reliability";
       rec_why := "Private Endpoint access failures caused secret retrieval and DNS resolution issues.";
       rec_risk := "Workloads unable to pull images or read secrets; cascading failures.";
       rec_priority := "High";
       rec_effort := "1–2 days";
       rec_cases := "120012348";
       rec_docs := "https://learn.microsoft.com/azure/private-link/private-endpoint-dns | https://learn.microsoft.com/azure/key-vault/general/private-link-service" |};
    {| rec_id := "REC-04";
       rec_title := "Make monitoring egress explicit and continuously validated through Azure Firewall";
       rec_pillars := "Operational Excellence, Reliability";
       rec_why := "Firewall misconfig blocked Azure Monitor/Prometheus endpoints; telemetry gaps.";
       rec_risk := "Reduced observability during incidents; delayed detection of failures.";
       rec_priority := "High";
       rec_effort := "1–3 days";
       rec_cases := "120012350; 120012354";
       rec_docs := "https://learn.microsoft.com/azure/firewall/overview | https://learn.microsoft.com/azure/azure-monitor/containers/kubernetes-monitoring-enable" |};
    {| rec_id := "REC-05";
       rec_title := "Implement AKS subnet/IP capacity planning and autoscaler guardrails";
       rec_pillars := "Reliability, Performance Efficiency";
       rec_why := "Autoscaling failures due to subnet IP range constraints.";
       rec_risk := "Scale-out fails; pods stuck Pending; degraded performance/availability.";
       rec_priority := "High";
       rec_effort := "0.5–2 days";
       rec_cases := "120012351";
       rec_docs := "https://learn.microsoft.com/azure/aks/cluster-autoscaler | https://learn.microsoft.com/azure/aks/concepts-network" |};
    {| rec_id := "REC-06";
       rec_title := "Reduce configuration drift via IaC + policy guardrails + runbooks";
       rec_pillars := "Operational Excellence, Security";
       rec_why := "Pattern of incidents rooted in configuration mistakes (Bastion association, probes, routing, rules).";
       rec_risk := "Recurring outages; inconsistent environments; slower recovery.";
       rec_priority := "High";
       rec_effort := "1–3 weeks (incremental)";
       rec_cases := "120012352; 120012346; 120012353; 120012350";
       rec_docs := "https://learn.microsoft.com/azure/governance/policy/overview | https://learn.microsoft.com/azure/well-architected/" |} ].

Definition recommendation_row (rec : recommendation) : list pyval :=
  [ VStr (rec_id rec);
    VStr (rec_title rec);
    VStr (rec_pillars rec);
    VStr (rec_why rec);
    VStr (rec_risk rec);
    VStr (rec_priority rec);
    VStr (rec_effort rec);
    VStr (rec_cases rec);
    VStr (rec_docs rec) ].

Definition Recommendations_sheet : Worksheet :=
  let ws := new_sheet "Recommendations" in
  let ws := with_freeze_panes "A2" ws in
  let ws := append (VStr <$> rec_headers) ws in
  let ws := style_row 1 1 (len rec_headers) style_header ws in
  let ws := append_all recommendation_row recommendations ws in
  let ws := style_rows 2 (1 + len recommendations) 1 (len rec_headers)
              (set_alignment wrap) ws in
  let ws := _set_col_widths
              [(1, 10); (2, 46); (3, 26); (4, 38); (5, 34); (6, 10); (7, 16);
               (8, 22); (9, 60)] ws in
  _apply_table "RecommendationsTable" 1 1 (1 + len recommendations) (len rec_headers) ws.

(** Sheet: Roadmap. *)
Definition roadmap : list (string * string * string) :=
  [ ("Next 7 days",
     "Stability quick wins",
     "Automate cert renewal + alerts (REC-02); standardize probes/routing (REC-01); validate monitoring egress (REC-04)");
    ("Next 30 days",
     "Platform hardening",
     "Automate Private DNS/Private Link zone linking (REC-03); add subnet/IP guardrails and alerts (REC-05); add telemetry-drop alerting (REC-04)");
    ("Next 90 days",
     "Operational maturity",
     "Expand IaC coverage and policy guardrails; publish runbooks and do game-day drills (REC-06)") ].

Definition roadmap_row (r : string * string * string) : list pyval :=
  [VStr r.1.1; VStr r.1.2; VStr r.2].

Definition Roadmap_sheet : Worksheet :=
  let ws := new_sheet "Roadmap" in
  let ws := with_freeze_panes "A2" ws in
  let ws := append [VStr "Horizon"; VStr "Focus"; VStr "Actions"] ws in
  let ws := style_row 1 1 3 style_header ws in
  let ws := append_all roadmap_row roadmap ws in
  let ws := style_rows 2 (1 + len roadmap) 1 3 (set_alignment wrap) ws in
  let ws := _set_col_widths [(1, 14); (2, 22); (3, 110)] ws in
  _apply_table "RoadmapTable" 1 1 (1 + len roadmap) 3 ws.

(** Sheet: Support Cases. *)

(** A dictionary key as a cell value: a field name, or Python's [None]. *)
Definition key_value (k : key) : pyval :=
  match k with
  | Some s => VStr s
  | None => VNone
  end.

(** [[item.get(h, "") for h in headers]] *)
Definition case_row (headers : list key) (item : dict) : list pyval :=
  (λ h, dict_get h (VStr EmptyString) item) <$> headers.

Definition case_widths : list (Z * Z) :=
  [(1, 12); (2, 44); (3, 12); (4, 28); (5, 60); (6, 56); (7, 56); (8, 28)].

Definition SupportCases_sheet (support_cases : list dict) : Worksheet :=
  let ws := new_sheet "SupportCases" in
  let ws := with_freeze_panes "A2" ws in
  match support_cases with
  | [] => ws
  | first :: _ =>
      let headers := dict_keys first in
      let ws := append (key_value <$> headers) ws in
      let ws := style_row 1 1 (len headers) style_header ws in
      let ws := append_all (case_row headers) support_cases ws in
      let ws := style_rows 2 (1 + len support_cases) 1 (len headers)
                  (set_alignment wrap) ws in
      let ws := _set_col_widths case_widths ws in
      let ws := _apply_table "SupportCasesTable" 1 1
                  (1 + len support_cases) (len headers) ws in
      with_auto_filter (calculate_dimension ws) ws
  end.

(** ** The workbook *)

Record DocumentProperties :=
  { doc_title : option string; created : option datetime }.

Record Workbook :=
  { properties : DocumentProperties; sheets : list Worksheet }.

(** Lines 56 to 328 of [build_workbook]: the workbook handed to [wb.save]. *)
Definition assemble (architecture_md : string) (support_cases : list dict)
    (assessment_date : date) (now : datetime) : result Workbook :=
  let props := {| doc_title := Some "Azure WAF Assessment"; created := Some now |} in
  overview ← Overview_sheet architecture_md assessment_date (new_sheet "Sheet");
  mret {| properties := props;
          sheets := [ overview; Scores_sheet; Recommendations_sheet; Roadmap_sheet;
                      SupportCases_sheet support_cases ] |}.

(** ** Paths and the file system *)

(** A [pathlib.Path], absolute, as its components with the innermost
    first: the parent of a path is its tail and the root is [[]]. *)
Definition path : Type := list string.

Definition joinpath (p : path) (c : string) : path := c :: p.
Infix "</>" := joinpath (at level 40, left associativity).

Definition parent (p : path) : path := tail p.

(** [str(p)] *)
Definition path_str (p : path) : string :=
  match p with
  | [] => "/"
  | _ => foldr (λ c s, s +:+ "/" +:+ c) EmptyString p
  end.

Inductive node : Type :=
  | Dir
  | TextFile (text : string)
  | XlsxFile (wb : Workbook).

(** The file system holds a node at each path that exists; the root is
    always a directory. *)
Abbreviation FS := (gmap path node).

Definition lookup_path (fs : FS) (p : path) : option node :=
  match p with
  | [] => Some Dir
  | _ => fs !! p
  end.

(** A computation on the file system that returns or raises; what it did
    to the file system before a raise stays done. *)
Definition io (A : Type) : Type := FS → FS * result A.

#[global] Instance io_ret : MRet io := λ A x fs, (fs, inr x).
#[global] Instance io_bind : MBind io := λ A B f m fs,
  match m fs with
  | (fs', inl e) => (fs', inl e)
  | (fs', inr x) => f x fs'
  end.

Definition raise {A : Type} (e : exn) : io A := λ fs, (fs, inl e).
Definition lift {A : Type} (r : result A) : io A := λ fs, (fs, r).

(** [p.exists()] *)
Definition path_exists (p : path) : io bool :=
  λ fs, (fs, inr (bool_decide (is_Some (lookup_path fs p)))).

(** [p.is_dir()] *)
Definition is_dir (fs : FS) (p : path) : bool :=
  match lookup_path fs p with
  | Some Dir => true
  | _ => false
  end.

(** Opening [p] for reading as UTF-8 text and reading it whole. *)
Definition read_file (p : path) : io string :=
  λ fs, match lookup_path fs p with
        | None => (fs, inl (FileNotFoundError (path_str p)))
        | Some Dir => (fs, inl (IsADirectoryError (path_str p)))
        | Some (TextFile s) => (fs, inr s)
        | Some (XlsxFile _) => (fs, inl (UnicodeDecodeError (path_str p)))
        end.

(** [os.mkdir(p)] *)
Definition os_mkdir (p : path) : io () :=
  λ fs, match p with
        | [] => (fs, inl (FileExistsError (path_str p)))
        | _ :: up =>
            match lookup_path fs up with
            | None => (fs, inl (FileNotFoundError (path_str p)))
            | Some Dir =>
                match lookup_path fs p with
                | Some _ => (fs, inl (FileExistsError (path_str p)))
                | None => (<[p := Dir]> fs, inr ())
                end
            | Some _ => (fs, inl (NotADirectoryError (path_str p)))
            end
        end.

(** [p.mkdir(parents=False, exist_ok=True)] *)
Definition mkdir_exist_ok (p : path) : io () :=
  λ fs, match os_mkdir p fs with
        | (fs', inr u) => (fs', inr u)
        | (fs', inl (FileNotFoundError m)) => (fs', inl (FileNotFoundError m))
        | (fs', inl e) => if is_dir fs' p then (fs', inr ()) else (fs', inl e)
        end.

(** [p.mkdir(parents=True, exist_ok=True)]: on a missing parent, make the
    parent the same way and try again. *)
Fixpoint mkdir (p : path) : io () :=
  λ fs, match os_mkdir p fs with
        | (fs', inr u) => (fs', inr u)
        | (fs', inl (FileNotFoundError m)) =>
            match p with
            | [] => (fs', inl (FileNotFoundError m))
            | _ :: up =>
                match mkdir up fs' with
                | (fs'', inr _) => mkdir_exist_ok p fs''
                | (fs'', inl e) => (fs'', inl e)
                end
            end
        | (fs', inl e) => if is_dir fs' p then (fs', inr ()) else (fs', inl e)
        end.

(** [wb.save(p)]: open [p] for writing, write the workbook, close. *)
Definition save (wb : Workbook) (p : path) : io () :=
  λ fs, match p with
        | [] => (fs, inl (IsADirectoryError (path_str p)))
        | _ :: up =>
            match lookup_path fs up with
            | None => (fs, inl (FileNotFoundError (path_str p)))
            | Some Dir =>
                match lookup_path fs p with
                | Some Dir => (fs, inl (IsADirectoryError (path_str p)))
                | _ => (<[p := XlsxFile wb]> fs, inr ())
                end
            | Some _ => (fs, inl (NotADirectoryError (path_str p)))
            end
        end.

(** ** The script *)

Section Script.

(** [csv.reader] over the text of a file. *)
Variable csv_reader : string → list (list string).

Definition _read_text (p : path) : io string := read_file p.

Definition _read_support_cases (csv_path : path) : io (list dict) :=
  f ← read_file csv_path;
  mret (DictReader (csv_reader f)).

Definition build_workbook (architecture_md_path support_cases_csv_path
    output_xlsx_path : path) (assessment_date : date) (now : datetime) : io path :=
  architecture_md ← _read_text architecture_md_path;
  support_cases ← _read_support_cases support_cases_csv_path;
  wb ← lift (assemble architecture_md support_cases assessment_date now);
  _ ← mkdir (parent output_xlsx_path);
  _ ← save wb output_xlsx_path;
  mret output_xlsx_path.

(** [main], with the script's directory [ROOT], today's date and the
    reading of the clock as inputs; it returns the lines it prints. *)
Definition main (ROOT : path) (today : date) (now : datetime) : io (list string) :=
  let assessment_date := today in
  let mid := ROOT </> ".github" </> "skills" </> "waf-assessment" </> "mid" in
  let architecture_md_path := mid </> "architecture_document.md" in
  let support_cases_csv_path := mid </> "azure_support_cases.csv" in
  let output_xlsx_path := mid </> "waf_assessment_results.xlsx" in
  md_exists ← path_exists architecture_md_path;
  if negb md_exists then
    raise (FileNotFoundError
             ("Missing architecture doc: " +:+ path_str architecture_md_path))
  else
    csv_exists ← path_exists support_cases_csv_path;
    if negb csv_exists then
      raise (FileNotFoundError
               ("Missing support cases CSV: " +:+ path_str support_cases_csv_path))
    else
      out ← build_workbook architecture_md_path support_cases_csv_path
              output_xlsx_path assessment_date now;
      mret [path_str out].

End Script.

(** A tokenizer for plain CSV text: records end at line feeds, fields at
    commas.  It agrees with [csv.reader] on text that has no quote
    character and no carriage return. *)
Fixpoint split_on (sep : ascii) (s : string) : list string :=
  match s with
  | EmptyString => [EmptyString]
  | String a s' =>
      if decide (a = sep) then EmptyString :: split_on sep s'
      else match split_on sep s' with
           | [] => [String a EmptyString]
           | w :: ws => String a w :: ws
           end
  end.

Definition plain_lines (s : string) : list string :=
  let parts := split_on "010"%char s in
  if decide (last parts = Some EmptyString) then removelast parts else parts.

Definition plain_csv_reader (s : string) : list (list string) :=
  (λ line, if decide (line = EmptyString) then [] else split_on ","%char line)
    <$> plain_lines s.

(** ** Vocabulary of the statements *)

Definition row_lookup (values : list pyval) (c0 c : Z) : option pyval :=
  if decide (c0 ≤ c) then values !! Z.to_nat (c - c0) else None.

(** The sheet before the loops that only restyle it. *)
Definition cases_rows (first : dict) (support_cases : list dict) : Worksheet :=
  append_all (case_row (dict_keys first)) support_cases
    (style_row 1 1 (len (dict_keys first)) style_header
       (append (key_value <$> dict_keys first)
          (with_freeze_panes "A2" (new_sheet "SupportCases")))).

(** What the cell operations leave alone. *)
Definition frame_of (ws : Worksheet) :=
  (title ws, freeze_panes ws, tables ws, auto_filter_ref ws,
   conditional_formatting ws, column_widths ws, row_heights ws).

(** The output location can be written: every directory above it exists
    or can be made, and the location itself is not a directory. *)
Fixpoint dirs_or_missing (fs : FS) (p : path) : bool :=
  match p with
  | [] => true
  | _ :: up =>
      match lookup_path fs p with
      | None | Some Dir => dirs_or_missing fs up
      | Some _ => false
      end
  end.

Definition writable (fs : FS) (out : path) : bool :=
  match out with
  | [] => false
  | _ :: up => dirs_or_missing fs up && negb (is_dir fs out)
  end.

(** [fs'] is [fs] with some of the missing directories down to [p] made. *)
Definition made_dirs (p : path) (fs fs' : FS) : Prop :=
  ∀ q, fs' !! q = fs !! q ∨
       (q `suffix_of` p ∧ q ≠ [] ∧ fs !! q = None ∧ fs' !! q = Some Dir).

Definition document_properties (now : datetime) : DocumentProperties :=
  {| doc_title := Some "Azure WAF Assessment"; created := Some now |}.

(** The workbook of lines 56 to 328, given its Overview sheet. *)
Definition built (overview : Worksheet) (support_cases : list dict) (now : datetime)
    : Workbook :=
  {| properties := document_properties now;
     sheets := [ overview; Scores_sheet; Recommendations_sheet; Roadmap_sheet;
                 SupportCases_sheet support_cases ] |}.

(** What a run does once both inputs are read. *)
Definition write_out (wb : Workbook) (out : path) : io path :=
  λ fs, match mkdir (parent out) fs with
        | (fs1, inr _) =>
            match save wb out fs1 with
            | (fs2, inr _) => (fs2, inr out)
            | (fs2, inl e) => (fs2, inl e)
            end
        | (fs1, inl e) => (fs1, inl e)
        end.

(** ** Reading a workbook back *)

(** [wb[name]]: the first sheet with that title. *)
Definition sheet_named (name : string) (wb : Workbook) : option Worksheet :=
  List.find (λ ws, bool_decide (title ws = name)) (sheets wb).

(** The values at rows 1..[rows], columns 1..[cols]. *)
Definition grid_values (ws : Worksheet) (rows cols : nat) : list (list (option pyval)) :=
  (λ r, (λ c, cell_value ws r c) <$> seqZ 1 (Z.of_nat cols)) <$> seqZ 1 (Z.of_nat rows).

(** The positions of rows 1..[rows], columns 1..[cols]. *)
Definition rect (rows cols : Z) : list (Z * Z) :=
  r ← seqZ 1 rows; c ← seqZ 1 cols; [(r, c)].


(** When a [CellIsRule] formats a cell that holds the integer [v]:
    [between] includes both ends. *)
Definition rule_applies (rule : CellIsRule) (v : Z) : bool :=
  match int_str <$> formula rule with
  | [Some a] =>
      if decide (operator rule = "lessThan") then bool_decide (v < a)
      else if decide (operator rule = "greaterThanOrEqual") then bool_decide (a ≤ v)
      else false
  | [Some a; Some b] =>
      if decide (operator rule = "between") then bool_decide (a ≤ v ≤ b) else false
  | _ => false
  end.

(** A node without the creation time of its workbook. *)
Definition erase_created (n : node) : node :=
  match n with
  | XlsxFile wb =>
      XlsxFile {| properties := {| doc_title := doc_title (properties wb); created := None |};
                  sheets := sheets wb |}
  | _ => n
  end.


(** ** Sample inputs *)

Definition LF : string := String "010"%char EmptyString.

Definition sample_date : date := {| year := 2026; month := 3; day := 9 |}.

Definition sample_md : path := [] </> "repo" </> "doc.md".
Definition sample_csv : path := [] </> "repo" </> "cases.csv".
Definition sample_out : path := [] </> "out" </> "reports" </> "waf.xlsx".

Definition sample_fs (csv_text : string) : FS :=
  <[sample_md := TextFile "# Architecture"]>
    (<[sample_csv := TextFile csv_text]> (<[[] </> "repo" := Dir]> ∅)).

(** Two records under a two-field header. *)
Definition two_cases : string :=
  "ticketnumber,title" +:+ LF +:+ "120012346,Probe failure" +:+ LF +:+
  "120012347,Certificate expired" +:+ LF.

(** The first data row has a field more than the header, the second has
    not. *)
Definition ragged_cases : string :=
  "a" +:+ LF +:+ "1,2" +:+ LF +:+ "3" +:+ LF.

(** A header and no record. *)
Definition header_only : string := "ticketnumber,title" +:+ LF.

(** The inputs of [main] under the script's directory. *)
Definition sample_root : path := [] </> "repo".
Definition sample_mid : path :=
  sample_root </> ".github" </> "skills" </> "waf-assessment" </> "mid".

Definition main_fs : FS :=
  <[sample_mid </> "architecture_document.md" := TextFile "# Architecture"]>
    (<[sample_mid </> "azure_support_cases.csv" := TextFile two_cases]>
       (<[sample_mid := Dir]> ∅)).

(** The conditional formats of a sheet that apply to the integer [v]. *)
Definition applying_rules (ws : Worksheet) (v : Z) : list (string * CellIsRule) :=
  List.filter (λ fr, rule_applies fr.2 v) (conditional_formatting ws).

(** Why [wb.save(p)] would raise on a file system, if it would. *)
Definition save_error (fs : FS) (p : path) : option exn :=
  match p with
  | [] => Some (IsADirectoryError (path_str p))
  | _ :: up =>
      match lookup_path fs up with
      | None => Some (FileNotFoundError (path_str p))
      | Some Dir =>
          match lookup_path fs p with
          | Some Dir => Some (IsADirectoryError (path_str p))
          | _ => None
          end
      | Some _ => Some (NotADirectoryError (path_str p))
      end
  end.


Definition ragged_records : list dict :=
  Eval vm_compute in DictReader (plain_csv_reader ragged_cases).

(** One run on the sample inputs. *)
Definition sample_run (csv_text : string) (now : datetime) : FS * result path :=
  build_workbook plain_csv_reader sample_md sample_csv sample_out sample_date now
    (sample_fs csv_text).

(** * Properties *)

Lemma put_row_values (r c0 : Z) (values : list pyval) (m : gmap (Z * Z) Cell) (r' c' : Z) :
  (value <$> put_row r c0 values m) !! (r', c') =
  if decide (r' = r) then
    match row_lookup values c0 c' with
    | Some v => Some v
    | None => (value <$> m) !! (r', c')
    end
  else (value <$> m) !! (r', c').
Proof.
  revert c0 m. induction values as [|v values IH]; intros c0 m; simpl.
  - unfold row_lookup. destruct (decide (r' = r)); [|done].
    destruct (decide (c0 ≤ c')); by rewrite ?lookup_nil.
  - rewrite IH. unfold row_lookup.
    destruct (decide (r' = r)) as [->|Hr].
    + destruct (decide (c0 + 1 ≤ c')) as [H1|H1].
      * rewrite decide_True by lia.
        replace (Z.to_nat (c' - c0)) with (S (Z.to_nat (c' - (c0 + 1)))) by lia.
        simpl. destruct (values !! _); [done|].
        rewrite lookup_fmap, lookup_insert_ne, <- lookup_fmap; [done|].
        intros [=]; lia.
      * destruct (decide (c0 ≤ c')) as [H2|H2].
        -- assert (c' = c0) as -> by lia.
           replace (Z.to_nat (c0 - c0)) with 0%nat by lia. simpl.
           by rewrite lookup_fmap, lookup_insert_eq.
        -- rewrite lookup_fmap, lookup_insert_ne, <- lookup_fmap; [done|].
           intros [=]; lia.
    + rewrite lookup_fmap, lookup_insert_ne, <- lookup_fmap; [done|].
      intros [=]; lia.
Qed.

Lemma values_of_append (values : list pyval) (ws : Worksheet) (r c : Z) :
  values_of (append values ws) !! (r, c) =
  if decide (r = current_row ws + 1) then
    match row_lookup values 1 c with
    | Some v => Some v
    | None => values_of ws !! (r, c)
    end
  else values_of ws !! (r, c).
Proof. unfold values_of, append. simpl. apply put_row_values. Qed.

Lemma current_row_append (values : list pyval) (ws : Worksheet) :
  current_row (append values ws) = current_row ws + 1.
Proof. done. Qed.

(** Restyling a cell that exists changes no value and leaves the cursor. *)
Lemma update_cell_values (rc : Z * Z) (f : Cell → Cell) (ws : Worksheet) :
  (∀ c, value (f c) = value c) →
  is_Some (values_of ws !! rc) →
  values_of (update_cell rc f ws) = values_of ws ∧
  current_row (update_cell rc f ws) = current_row ws.
Proof.
  intros Hf [v Hv]. unfold values_of in *. rewrite lookup_fmap in Hv.
  unfold update_cell, get_cell. simpl.
  destruct (cells ws !! rc) as [c0|] eqn:Hc; [|done]. simpl in *.
  split; [|done].
  rewrite fmap_insert, Hf. apply insert_id. by rewrite lookup_fmap, Hc.
Qed.

Lemma style_cols_values (r : Z) (f : Cell → Cell) (cols : list Z) (ws : Worksheet) :
  (∀ c, value (f c) = value c) →
  (∀ c, c ∈ cols → is_Some (values_of ws !! (r, c))) →
  let ws' := foldl (λ ws c, update_cell (r, c) f ws) ws cols in
  values_of ws' = values_of ws ∧ current_row ws' = current_row ws.
Proof.
  intros Hf. revert ws. induction cols as [|c cols IH]; intros ws Hin; simpl; [done|].
  destruct (update_cell_values (r, c) f ws Hf) as [Hv Hr].
  { apply Hin. left. }
  destruct (IH (update_cell (r, c) f ws)) as [Hv' Hr'].
  { intros c' Hc'. rewrite Hv. apply Hin. by right. }
  simpl in *. by rewrite Hv', Hr', Hv, Hr.
Qed.

Lemma elem_of_range (x start stop : Z) :
  x ∈ range start stop ↔ start ≤ x < stop.
Proof. unfold range. rewrite elem_of_seqZ. lia. Qed.

Lemma style_row_values (r c1 c2 : Z) (f : Cell → Cell) (ws : Worksheet) :
  (∀ c, value (f c) = value c) →
  (∀ c, c1 ≤ c ≤ c2 → is_Some (values_of ws !! (r, c))) →
  values_of (style_row r c1 c2 f ws) = values_of ws ∧
  current_row (style_row r c1 c2 f ws) = current_row ws.
Proof.
  intros Hf Hin. apply style_cols_values; [done|].
  intros c Hc%elem_of_range. apply Hin. lia.
Qed.

Lemma style_rows_values (r1 r2 c1 c2 : Z) (f : Cell → Cell) (ws : Worksheet) :
  (∀ c, value (f c) = value c) →
  (∀ r c, r1 ≤ r ≤ r2 → c1 ≤ c ≤ c2 → is_Some (values_of ws !! (r, c))) →
  values_of (style_rows r1 r2 c1 c2 f ws) = values_of ws ∧
  current_row (style_rows r1 r2 c1 c2 f ws) = current_row ws.
Proof.
  intros Hf. unfold style_rows.
  assert (∀ rows ws,
    (∀ r c, r ∈ rows → c1 ≤ c ≤ c2 → is_Some (values_of ws !! (r, c))) →
    let ws' := foldl (λ ws r, style_row r c1 c2 f ws) ws rows in
    values_of ws' = values_of ws ∧ current_row ws' = current_row ws) as Hgen.
  { induction rows as [|r rows IH]; intros ws0 Hin; simpl; [done|].
    destruct (style_row_values r c1 c2 f ws0 Hf) as [Hv Hr].
    { intros c Hc. apply Hin; [left|done]. }
    destruct (IH (style_row r c1 c2 f ws0)) as [Hv' Hr'].
    { intros r' c' Hr' Hc'. rewrite Hv. apply Hin; [by right|done]. }
    simpl in *. by rewrite Hv', Hr', Hv, Hr. }
  intros Hin. apply Hgen. intros r c Hr%elem_of_range Hc. apply Hin; lia.
Qed.

(** The cells of a sheet after appending one row per item. *)
Lemma values_of_append_all {A : Type} (g : A → list pyval) (items : list A)
    (ws : Worksheet) :
  current_row (append_all g items ws) = current_row ws + len items ∧
  ∀ r c,
    values_of (append_all g items ws) !! (r, c) =
    match (if decide (current_row ws < r)
           then items !! Z.to_nat (r - current_row ws - 1) else None) with
    | Some item =>
        match row_lookup (g item) 1 c with
        | Some v => Some v
        | None => values_of ws !! (r, c)
        end
    | None => values_of ws !! (r, c)
    end.
Proof.
  revert ws. induction items as [|item items IH]; intros ws.
  - split; [unfold len; simpl; lia|]. intros r c. simpl.
    destruct (decide _); by rewrite ?lookup_nil.
  - destruct (IH (append (g item) ws)) as [Hcur Hval].
    change (append_all g (item :: items) ws)
      with (append_all g items (append (g item) ws)).
    split. { rewrite Hcur, current_row_append. unfold len. simpl length. lia. }
    intros r c. rewrite Hval, current_row_append, values_of_append.
    destruct (decide (current_row ws + 1 < r)) as [H1|H1].
    + rewrite (decide_True (P := current_row ws < r)) by lia.
      replace (Z.to_nat (r - current_row ws - 1))
        with (S (Z.to_nat (r - (current_row ws + 1) - 1))) by lia.
      simpl. rewrite (decide_False (P := r = current_row ws + 1)) by lia. done.
    + destruct (decide (current_row ws < r)) as [H2|H2].
      * assert (r = current_row ws + 1) as -> by lia.
        replace (Z.to_nat (current_row ws + 1 - current_row ws - 1)) with 0%nat by lia.
        simpl. rewrite decide_True by lia. done.
      * rewrite decide_False by lia. done.
Qed.

Lemma row_lookup_is_Some (values : list pyval) (c : Z) :
  is_Some (row_lookup values 1 c) ↔ 1 ≤ c ≤ len values.
Proof.
  unfold row_lookup, len. destruct (decide (1 ≤ c)).
  - rewrite lookup_lt_is_Some. lia.
  - split; [intros [? [=]]|lia].
Qed.


Lemma cells_set_col_widths (widths : list (Z * Z)) (ws : Worksheet) :
  cells (_set_col_widths widths ws) = cells ws ∧
  tables (_set_col_widths widths ws) = tables ws ∧
  auto_filter_ref (_set_col_widths widths ws) = auto_filter_ref ws ∧
  title (_set_col_widths widths ws) = title ws ∧
  freeze_panes (_set_col_widths widths ws) = freeze_panes ws.
Proof.
  unfold _set_col_widths. revert ws.
  induction widths as [|w widths IH]; intros ws; simpl; [done|].
  destruct (IH (with_column_widths (<[get_column_letter w.1:=w.2]> (column_widths ws)) ws))
    as (-> & -> & -> & -> & ->). done.
Qed.

Lemma length_case_row (headers : list key) (item : dict) :
  len (case_row headers item) = len headers.
Proof. unfold case_row, len. by rewrite length_fmap. Qed.


Lemma style_header_value (c : Cell) : value (style_header c) = value c.
Proof. done. Qed.

Lemma set_alignment_value (a : Alignment) (c : Cell) : value (set_alignment a c) = value c.
Proof. done. Qed.

Lemma values_of_header (headers : list pyval) (ws : Worksheet) (f : Cell → Cell) :
  (∀ c, value (f c) = value c) →
  values_of ws = ∅ → current_row ws = 0 →
  let ws' := style_row 1 1 (len headers) f (append headers ws) in
  current_row ws' = 1 ∧
  ∀ r c, values_of ws' !! (r, c) =
         if decide (r = 1) then row_lookup headers 1 c else None.
Proof.
  intros Hf Hempty Hcur ws'.
  assert (∀ r c, values_of (append headers ws) !! (r, c) =
                 if decide (r = 1) then row_lookup headers 1 c else None) as Hv.
  { intros r c. rewrite values_of_append, Hcur, Hempty, lookup_empty.
    change (0 + 1) with 1.
    destruct (decide (r = 1)); [|done]. by destruct (row_lookup _ _ _). }
  destruct (style_row_values 1 1 (len headers) f (append headers ws) Hf) as [Hv' Hc'].
  { intros c Hc. rewrite Hv, decide_True by done. by apply row_lookup_is_Some. }
  subst ws'. rewrite Hv', Hc', current_row_append, Hcur. done.
Qed.

Lemma values_of_cases_rows (first : dict) (support_cases : list dict) :
  current_row (cases_rows first support_cases) = 1 + len support_cases ∧
  ∀ r c,
    values_of (cases_rows first support_cases) !! (r, c) =
    if decide (r = 1) then row_lookup (key_value <$> dict_keys first) 1 c
    else if decide (1 < r) then
      item ← support_cases !! Z.to_nat (r - 2);
      row_lookup (case_row (dict_keys first) item) 1 c
    else None.
Proof.
  unfold cases_rows.
  set (ws0 := with_freeze_panes "A2" (new_sheet "SupportCases")).
  destruct (values_of_header (key_value <$> dict_keys first) ws0 style_header)
    as [Hcur Hval]; [done..|].
  assert (len (key_value <$> dict_keys first) = len (dict_keys first)) as Hlen.
  { unfold len. by rewrite length_fmap. }
  rewrite Hlen in Hcur, Hval.
  set (ws2 := style_row 1 1 (len (dict_keys first)) style_header
                (append (key_value <$> dict_keys first) ws0)) in *.
  destruct (values_of_append_all (case_row (dict_keys first)) support_cases ws2)
    as [Hcur' Hval'].
  split; [by rewrite Hcur', Hcur|].
  intros r c. rewrite Hval', Hval, Hcur.
  destruct (decide (r = 1)) as [->|Hr].
  - rewrite decide_False by lia. done.
  - destruct (decide (1 < r)); [|done].
    replace (r - 1 - 1) with (r - 2) by lia.
    destruct (support_cases !! _) as [item|]; [|done]. simpl.
    by destruct (row_lookup _ _ _).
Qed.

Lemma cases_rows_is_Some (first : dict) (support_cases : list dict) (r c : Z) :
  is_Some (values_of (cases_rows first support_cases) !! (r, c)) ↔
  1 ≤ r ≤ 1 + len support_cases ∧ 1 ≤ c ≤ len (dict_keys first).
Proof.
  destruct (values_of_cases_rows first support_cases) as [_ ->].
  destruct (decide (r = 1)) as [->|Hr].
  - rewrite row_lookup_is_Some. unfold len. rewrite length_fmap. lia.
  - destruct (decide (1 < r)) as [Hr'|Hr'].
    + destruct (support_cases !! Z.to_nat (r - 2)) as [item|] eqn:Hitem; simpl.
      * rewrite row_lookup_is_Some, length_case_row.
        apply lookup_lt_Some in Hitem. unfold len. lia.
      * apply lookup_ge_None in Hitem. unfold len.
        split; [intros [? [=]]|lia].
    + split; [intros [? [=]]|lia].
Qed.


Lemma foldl_invariant {A B : Type} (P : A → Prop) (f : A → B → A) (l : list B) (a : A) :
  (∀ a x, P a → P (f a x)) → P a → P (foldl f a l).
Proof. intros Hf. revert a. induction l; simpl; eauto. Qed.

Lemma frame_of_style_row (r c1 c2 : Z) (f : Cell → Cell) (ws : Worksheet) :
  frame_of (style_row r c1 c2 f ws) = frame_of ws.
Proof.
  unfold style_row.
  apply (foldl_invariant (λ ws', frame_of ws' = frame_of ws)); [|done].
  by intros ws' c <-.
Qed.

Lemma frame_of_style_rows (r1 r2 c1 c2 : Z) (f : Cell → Cell) (ws : Worksheet) :
  frame_of (style_rows r1 r2 c1 c2 f ws) = frame_of ws.
Proof.
  unfold style_rows.
  apply (foldl_invariant (λ ws', frame_of ws' = frame_of ws)); [|done].
  intros ws' r <-. apply frame_of_style_row.
Qed.

Lemma frame_of_append_all {A : Type} (g : A → list pyval) (items : list A)
    (ws : Worksheet) :
  frame_of (append_all g items ws) = frame_of ws.
Proof.
  unfold append_all.
  apply (foldl_invariant (λ ws', frame_of ws' = frame_of ws)); [|done].
  by intros ws' c <-.
Qed.

Lemma frame_of_cases_rows (first : dict) (support_cases : list dict) :
  frame_of (cases_rows first support_cases) =
  frame_of (with_freeze_panes "A2" (new_sheet "SupportCases")).
Proof.
  unfold cases_rows. by rewrite frame_of_append_all, frame_of_style_row.
Qed.

Lemma with_auto_filter_proj (a : string) (ws : Worksheet) :
  values_of (with_auto_filter a ws) = values_of ws ∧
  title (with_auto_filter a ws) = title ws ∧
  tables (with_auto_filter a ws) = tables ws.
Proof. done. Qed.

Lemma _apply_table_proj (name : string) (r1 c1 r2 c2 : Z) (ws : Worksheet) :
  values_of (_apply_table name r1 c1 r2 c2 ws) = values_of ws ∧
  title (_apply_table name r1 c1 r2 c2 ws) = title ws ∧
  tables (_apply_table name r1 c1 r2 c2 ws) =
    tables ws ++
    [ {| displayName := name;
         ref := range_string c1 r1 c2 r2;
         tableStyleInfo := {| style_name := "TableStyleMedium9";
                              showFirstColumn := false;
                              showLastColumn := false;
                              showRowStripes := true;
                              showColumnStripes := false |} |} ].
Proof. done. Qed.

Lemma SupportCases_sheet_unfold (first : dict) (rest : list dict) :
  SupportCases_sheet (first :: rest) =
  let ws := _apply_table "SupportCasesTable" 1 1 (1 + len (first :: rest))
              (len (dict_keys first))
              (_set_col_widths case_widths
                 (style_rows 2 (1 + len (first :: rest)) 1 (len (dict_keys first))
                    (set_alignment wrap) (cases_rows first (first :: rest)))) in
  with_auto_filter (calculate_dimension ws) ws.
Proof. reflexivity. Qed.

(** The finished sheet holds the values of [cases_rows]; it carries one
    table, over the header row and one row per record. *)
Lemma SupportCases_sheet_cons (first : dict) (rest : list dict) :
  let support_cases := first :: rest in
  let ws := SupportCases_sheet support_cases in
  values_of ws = values_of (cases_rows first support_cases) ∧
  title ws = "SupportCases" ∧
  tables ws =
    [ {| displayName := "SupportCasesTable";
         ref := range_string 1 1 (len (dict_keys first)) (1 + len support_cases);
         tableStyleInfo := {| style_name := "TableStyleMedium9";
                              showFirstColumn := false;
                              showLastColumn := false;
                              showRowStripes := true;
                              showColumnStripes := false |} |} ].
Proof.
  intros support_cases ws. subst ws support_cases.
  rewrite SupportCases_sheet_unfold. cbv zeta.
  destruct (style_rows_values 2 (1 + len (first :: rest)) 1 (len (dict_keys first))
              (set_alignment wrap) (cases_rows first (first :: rest))
              (set_alignment_value wrap)) as [Hv _].
  { intros r c Hr Hc. apply cases_rows_is_Some. lia. }
  pose proof (frame_of_style_rows 2 (1 + len (first :: rest)) 1 (len (dict_keys first))
                (set_alignment wrap) (cases_rows first (first :: rest))) as Hf.
  rewrite frame_of_cases_rows in Hf.
  injection Hf as Hti' _ Htb' _ _ _ _.
  match goal with
  | |- context [with_auto_filter ?a ?w] =>
      destruct (with_auto_filter_proj a w) as (-> & -> & ->)
  end.
  match goal with
  | |- context [_apply_table ?n ?r1 ?c1 ?r2 ?c2 ?w] =>
      destruct (_apply_table_proj n r1 c1 r2 c2 w) as (-> & -> & ->)
  end.
  match goal with
  | |- context [_set_col_widths ?l ?w] =>
      destruct (cells_set_col_widths l w) as (Hc & -> & _ & -> & _)
  end.
  unfold values_of at 1. rewrite Hc. fold (values_of (style_rows 2 (1 + len (first :: rest)) 1 (len (dict_keys first)) (set_alignment wrap) (cases_rows first (first :: rest)))).
  rewrite Hv, Hti', Htb'. done.
Qed.

(** ** The file system *)




Lemma made_dirs_refl (p : path) (fs : FS) : made_dirs p fs fs.
Proof. intros q. by left. Qed.

Lemma made_dirs_trans (p : path) (fs1 fs2 fs3 : FS) :
  made_dirs p fs1 fs2 → made_dirs p fs2 fs3 → made_dirs p fs1 fs3.
Proof.
  intros H12 H23 q. destruct (H12 q) as [E1|(S1 & N1 & A1 & B1)],
    (H23 q) as [E2|(S2 & N2 & A2 & B2)].
  - left. congruence.
  - right. repeat split; congruence.
  - right. repeat split; congruence.
  - congruence.
Qed.

Lemma made_dirs_cons (c : string) (p : path) (fs fs' : FS) :
  made_dirs p fs fs' → made_dirs (c :: p) fs fs'.
Proof.
  intros H q. destruct (H q) as [E|(S & N & A & B)]; [by left|right].
  repeat split; try done. by apply suffix_cons_r.
Qed.

Lemma lookup_path_cons (fs : FS) (c : string) (p : path) :
  lookup_path fs (c :: p) = fs !! (c :: p).
Proof. done. Qed.

Lemma os_mkdir_cases (p : path) (fs : FS) :
  (∃ e, os_mkdir p fs = (fs, inl e)) ∨
  (p ≠ [] ∧ fs !! p = None ∧ is_dir fs (parent p) = true ∧
   os_mkdir p fs = (<[p := Dir]> fs, inr ())).
Proof.
  destruct p as [|c up]; [left; by eexists|].
  unfold os_mkdir, is_dir, parent. simpl tail.
  destruct (lookup_path fs up) as [[]|]; try (left; by eexists).
  rewrite lookup_path_cons.
  destruct (fs !! (c :: up)) eqn:E; [left; by eexists|].
  right. by repeat split.
Qed.

Lemma os_mkdir_FileNotFoundError (p : path) (fs fs' : FS) (m : string) :
  os_mkdir p fs = (fs', inl (FileNotFoundError m)) → is_dir fs (parent p) = false.
Proof.
  destruct p as [|c up]; [done|].
  unfold os_mkdir, is_dir, parent. simpl tail.
  destruct (lookup_path fs up) as [[]|]; try done.
  rewrite lookup_path_cons. by destruct (fs !! (c :: up)).
Qed.

Lemma made_dirs_insert (p : path) (fs : FS) :
  p ≠ [] → fs !! p = None → made_dirs p fs (<[p := Dir]> fs).
Proof.
  intros Hp Hnone q. destruct (decide (q = p)) as [->|Hq].
  - right. by rewrite lookup_insert_eq.
  - left. by rewrite lookup_insert_ne.
Qed.

Lemma os_mkdir_frame (p : path) (fs : FS) : made_dirs p fs (os_mkdir p fs).1.
Proof.
  destruct (os_mkdir_cases p fs) as [[e ->]|(Hp & Hn & _ & ->)]; simpl.
  - apply made_dirs_refl.
  - by apply made_dirs_insert.
Qed.

Lemma mkdir_exist_ok_frame (p : path) (fs : FS) :
  made_dirs p fs (mkdir_exist_ok p fs).1.
Proof.
  unfold mkdir_exist_ok.
  destruct (os_mkdir_cases p fs) as [[e ->]|(Hp & Hn & _ & ->)]; simpl.
  - destruct e; try destruct (is_dir fs p); apply made_dirs_refl.
  - by apply made_dirs_insert.
Qed.

Lemma mkdir_unfold (p : path) (fs : FS) :
  mkdir p fs =
  match os_mkdir p fs with
  | (fs', inr u) => (fs', inr u)
  | (fs', inl (FileNotFoundError m)) =>
      match p with
      | [] => (fs', inl (FileNotFoundError m))
      | _ :: up =>
          match mkdir up fs' with
          | (fs'', inr _) => mkdir_exist_ok p fs''
          | (fs'', inl e) => (fs'', inl e)
          end
      end
  | (fs', inl e) => if is_dir fs' p then (fs', inr ()) else (fs', inl e)
  end.
Proof. by destruct p. Qed.

Lemma mkdir_frame (p : path) (fs : FS) : made_dirs p fs (mkdir p fs).1.
Proof.
  revert fs. induction p as [|c up IH]; intros fs; rewrite mkdir_unfold.
  - simpl. apply made_dirs_refl.
  - destruct (os_mkdir_cases (c :: up) fs) as [[e ->]|(Hp & Hn & _ & ->)].
    + destruct e; try (destruct (is_dir fs (c :: up)); apply made_dirs_refl).
      specialize (IH fs). destruct (mkdir up fs) as [fs1 [e|u]]; simpl in *.
      * by apply made_dirs_cons.
      * eapply made_dirs_trans; [by apply made_dirs_cons|].
        apply mkdir_exist_ok_frame.
    + by apply made_dirs_insert.
Qed.

(** A directory made is a directory. *)
Lemma mkdir_exist_ok_is_dir (p : path) (fs fs' : FS) (u : ()) :
  mkdir_exist_ok p fs = (fs', inr u) → is_dir fs' p = true.
Proof.
  unfold mkdir_exist_ok.
  destruct (os_mkdir_cases p fs) as [[e ->]|(Hp & Hn & _ & ->)].
  - destruct e; try done; destruct (is_dir fs p) eqn:E; try done; by intros [= <- _].
  - intros [= <- _]. destruct p; [done|].
    unfold is_dir. by rewrite lookup_path_cons, lookup_insert_eq.
Qed.

Lemma mkdir_is_dir (p : path) (fs fs' : FS) (u : ()) :
  mkdir p fs = (fs', inr u) → is_dir fs' p = true.
Proof.
  revert fs fs'. induction p as [|c up IH]; intros fs fs'; rewrite mkdir_unfold.
  - done.
  - destruct (os_mkdir_cases (c :: up) fs) as [[e ->]|(Hp & Hn & _ & ->)].
    + destruct e;
        try (destruct (is_dir fs (c :: up)) eqn:E; [by intros [= <- _]|done]).
      destruct (mkdir up fs) as [fs1 [e|u']]; [done|].
      apply mkdir_exist_ok_is_dir.
    + intros [= <- _]. unfold is_dir.
      by rewrite lookup_path_cons, lookup_insert_eq.
Qed.

(** With [parents=True] a missing parent is never reported. *)
Lemma mkdir_not_FileNotFoundError (p : path) (fs : FS) (m : string) :
  (mkdir p fs).2 ≠ inl (FileNotFoundError m).
Proof.
  revert fs. induction p as [|c up IH]; intros fs; rewrite mkdir_unfold.
  - done.
  - destruct (os_mkdir_cases (c :: up) fs) as [[e He]|(Hp & Hn & _ & ->)]; [|done].
    rewrite He.
    destruct e; try (destruct (is_dir fs (c :: up)); done).
    specialize (IH fs).
    destruct (mkdir up fs) as [fs1 [e|u']] eqn:Hup; [done|].
    apply mkdir_is_dir in Hup. unfold mkdir_exist_ok.
    destruct (os_mkdir_cases (c :: up) fs1) as [[e' He']|(_ & _ & _ & ->)]; [|done].
    rewrite He'.
    destruct e'; try (destruct (is_dir fs1 (c :: up)); done).
    apply os_mkdir_FileNotFoundError in He'. simpl in He'. congruence.
Qed.

Lemma dirs_or_missing_head (fs : FS) (p : path) :
  dirs_or_missing fs p = true →
  lookup_path fs p = None ∨ lookup_path fs p = Some Dir.
Proof.
  destruct p as [|c up]; [by right|].
  cbn [dirs_or_missing]. destruct (lookup_path fs (c :: up)) as [[]|]; eauto; done.
Qed.

Lemma dirs_or_missing_tail (fs : FS) (c : string) (up : path) :
  dirs_or_missing fs (c :: up) = true → dirs_or_missing fs up = true.
Proof. cbn [dirs_or_missing]. by destruct (lookup_path fs (c :: up)) as [[]|]. Qed.

Lemma os_mkdir_under_dir (c : string) (up : path) (fs : FS) :
  is_dir fs up = true →
  os_mkdir (c :: up) fs =
  match fs !! (c :: up) with
  | Some _ => (fs, inl (FileExistsError (path_str (c :: up))))
  | None => (<[c :: up := Dir]> fs, inr ())
  end.
Proof.
  unfold is_dir, os_mkdir. intros H.
  destruct (lookup_path fs up) as [[]|]; try done.
Qed.

Lemma made_dirs_longer (c : string) (up : path) (fs fs' : FS) :
  made_dirs up fs fs' → fs' !! (c :: up) = fs !! (c :: up).
Proof.
  intros H. destruct (H (c :: up)) as [E|(S & _)]; [done|].
  apply suffix_length in S. simpl in S. lia.
Qed.

Lemma mkdir_exist_ok_ok (c : string) (up : path) (fs : FS) :
  is_dir fs up = true →
  fs !! (c :: up) = None ∨ fs !! (c :: up) = Some Dir →
  ∃ fs', mkdir_exist_ok (c :: up) fs = (fs', inr ()).
Proof.
  intros Hup Hp. unfold mkdir_exist_ok. rewrite os_mkdir_under_dir by done.
  destruct Hp as [Hp|Hp]; rewrite Hp; [by eexists|].
  unfold is_dir. rewrite lookup_path_cons, Hp. by eexists.
Qed.

(** Where every ancestor is a directory or missing, the directories get
    made. *)
Lemma mkdir_ok (p : path) (fs : FS) :
  dirs_or_missing fs p = true → ∃ fs', mkdir p fs = (fs', inr ()).
Proof.
  revert fs. induction p as [|c up IH]; intros fs Hd; rewrite mkdir_unfold.
  - by eexists.
  - pose proof (dirs_or_missing_head _ _ Hd) as Hp. rewrite lookup_path_cons in Hp.
    apply dirs_or_missing_tail in Hd.
    destruct (dirs_or_missing_head _ _ Hd) as [Hup|Hup].
    + unfold os_mkdir at 1. rewrite Hup.
      destruct (IH fs Hd) as [fs1 H1]. rewrite H1.
      apply mkdir_exist_ok_ok; [by eapply mkdir_is_dir|].
      pose proof (mkdir_frame up fs) as Hf. rewrite H1 in Hf.
      by rewrite (made_dirs_longer c up fs fs1 Hf).
    + rewrite os_mkdir_under_dir by (unfold is_dir; by rewrite Hup).
      destruct Hp as [->| Hp]; [by eexists|]. rewrite Hp.
      unfold is_dir. rewrite lookup_path_cons, Hp. by eexists.
Qed.

Lemma save_under_dir (wb : Workbook) (c : string) (up : path) (fs : FS) :
  is_dir fs up = true →
  save wb (c :: up) fs =
  if is_dir fs (c :: up) then (fs, inl (IsADirectoryError (path_str (c :: up))))
  else (<[c :: up := XlsxFile wb]> fs, inr ()).
Proof.
  unfold is_dir, save. intros H.
  destruct (lookup_path fs up) as [[]|]; try done.
  by destruct (lookup_path fs (c :: up)) as [[]|].
Qed.

(** Saving reports a missing file only where the parent is missing. *)
Lemma save_FileNotFoundError (wb : Workbook) (p : path) (fs fs' : FS) (m : string) :
  save wb p fs = (fs', inl (FileNotFoundError m)) → is_dir fs (parent p) = false.
Proof.
  destruct p as [|c up]; [done|].
  unfold save, is_dir, parent. simpl tail.
  destruct (lookup_path fs up) as [[]|]; try done.
  by destruct (lookup_path fs (c :: up)) as [[]|].
Qed.

Lemma save_frame (wb : Workbook) (p : path) (fs : FS) :
  (save wb p fs = (<[p := XlsxFile wb]> fs, inr ()) ∧ p ≠ []) ∨
  (∃ e, save wb p fs = (fs, inl e)).
Proof.
  destruct p as [|c up]; [right; by eexists|].
  unfold save. destruct (lookup_path fs up) as [[]|]; try (right; by eexists).
  destruct (lookup_path fs (c :: up)) as [[]|]; try (right; by eexists); by left.
Qed.

(** ** The workbook *)


(** The Overview sheet is always made: its addresses are well formed. *)
Lemma Overview_sheet_ok (architecture_md : string) (assessment_date : date) :
  ∃ ws, Overview_sheet architecture_md assessment_date (new_sheet "Sheet") = inr ws ∧
        title ws = "Overview" ∧
        tables ws = [] ∧
        cell_value ws 7 1 = Some (VStr architecture_md) ∧
        cell_value ws 6 1 = Some (VStr "Source Architecture Document (excerpt)") ∧
        cell_value ws 3 2 = Some (VStr (isoformat assessment_date)).
Proof.
  unfold Overview_sheet. generalize (isoformat assessment_date). intros iso.
  eexists. split; [vm_compute; reflexivity|].
  repeat split; vm_compute; reflexivity.
Qed.

Lemma assemble_inr (architecture_md : string) (support_cases : list dict)
    (assessment_date : date) (now : datetime) :
  ∃ overview,
    Overview_sheet architecture_md assessment_date (new_sheet "Sheet") = inr overview ∧
    assemble architecture_md support_cases assessment_date now =
    inr (built overview support_cases now).
Proof.
  destruct (Overview_sheet_ok architecture_md assessment_date) as (ws & Hws & _).
  exists ws. split; [done|]. unfold assemble. by rewrite Hws.
Qed.

Lemma read_file_cases (p : path) (fs : FS) :
  (∃ s, lookup_path fs p = Some (TextFile s) ∧ read_file p fs = (fs, inr s)) ∨
  (∃ e, read_file p fs = (fs, inl e) ∧
        (∀ s, lookup_path fs p ≠ Some (TextFile s)) ∧
        (∀ m, e = FileNotFoundError m → lookup_path fs p = None)).
Proof.
  unfold read_file. destruct (lookup_path fs p) as [[| s | wb]|].
  - right. eexists. by repeat split.
  - left. by eexists.
  - right. eexists. by repeat split.
  - right. eexists. by repeat split.
Qed.

(** Whether saving works depends on the place, not on the workbook. *)
Lemma save_cases (wb : Workbook) (p : path) (fs : FS) :
  save wb p fs =
  match save_error fs p with
  | Some e => (fs, inl e)
  | None => (<[p := XlsxFile wb]> fs, inr ())
  end.
Proof.
  destruct p as [|c up]; [done|]. unfold save, save_error.
  destruct (lookup_path fs up) as [[]|]; try done.
  by destruct (lookup_path fs (c :: up)) as [[]|].
Qed.

Section Runs.

Variable csv_reader : string → list (list string).


Lemma build_workbook_read (md csv out : path) (d : date) (now : datetime)
    (fs : FS) (text ctext : string) :
  lookup_path fs md = Some (TextFile text) →
  lookup_path fs csv = Some (TextFile ctext) →
  ∃ ov, Overview_sheet text d (new_sheet "Sheet") = inr ov ∧
        build_workbook csv_reader md csv out d now fs =
        write_out (built ov (DictReader (csv_reader ctext)) now) out fs.
Proof.
  intros Hmd Hcsv.
  destruct (assemble_inr text (DictReader (csv_reader ctext)) d now) as (ov & Hov & Hwb).
  exists ov. split; [exact Hov|].
  unfold build_workbook, _read_text, _read_support_cases, write_out.
  unfold mbind, io_bind, mret, io_ret, lift, read_file.
  rewrite Hmd, Hcsv, Hwb.
  destruct (mkdir (parent out) fs) as [fs1 [e|u]]; [done|].
  by destruct (save _ out fs1) as [fs2 [e|u']].
Qed.

Lemma build_workbook_unread (md csv out : path) (d : date) (now : datetime) (fs : FS) :
  (∀ s, lookup_path fs md ≠ Some (TextFile s)) ∨
  (∀ s, lookup_path fs csv ≠ Some (TextFile s)) →
  ∃ e, (∀ now', build_workbook csv_reader md csv out d now' fs = (fs, inl e)) ∧
       (∀ m, e = FileNotFoundError m →
             lookup_path fs md = None ∨ lookup_path fs csv = None).
Proof.
  intros H.
  unfold build_workbook, _read_text, _read_support_cases.
  unfold mbind, io_bind, mret, io_ret, lift.
  destruct (read_file_cases md fs) as [(s & Hs & ->)|(e & -> & Hne & He)].
  - destruct H as [H|H]; [by destruct (H s)|].
    destruct (read_file_cases csv fs) as [(s' & Hs' & ->)|(e & -> & Hne & He)].
    + by destruct (H s').
    + exists e. split; [done|]. intros m Hm. right. by eapply He.
  - exists e. split; [done|]. intros m Hm. left. by eapply He.
Qed.

Lemma write_out_ok (wb : Workbook) (out : path) (fs : FS) :
  writable fs out = true →
  ∃ fs1, mkdir (parent out) fs = (fs1, inr ()) ∧
         write_out wb out fs = (<[out := XlsxFile wb]> fs1, inr out).
Proof.
  destruct out as [|c up]; [done|]. simpl. intros [Hd Hn]%andb_true_iff.
  destruct (mkdir_ok up fs Hd) as [fs1 H1].
  exists fs1. split; [done|]. unfold write_out. simpl parent. rewrite H1.
  rewrite save_under_dir by (by eapply mkdir_is_dir).
  pose proof (mkdir_frame up fs) as Hf. rewrite H1 in Hf.
  unfold is_dir in *. rewrite lookup_path_cons in *.
  rewrite (made_dirs_longer c up fs fs1 Hf).
  by destruct (fs !! (c :: up)) as [[]|].
Qed.

(** A run that returns has written its workbook at the output path. *)
Lemma write_out_inv (wb : Workbook) (out p : path) (fs fs' : FS) :
  write_out wb out fs = (fs', inr p) →
  p = out ∧ out ≠ [] ∧
  ∃ fs1, mkdir (parent out) fs = (fs1, inr ()) ∧ fs' = <[out := XlsxFile wb]> fs1.
Proof.
  unfold write_out. destruct (mkdir (parent out) fs) as [fs1 [e|[]]]; [done|].
  destruct (save_frame wb out fs1) as [[-> Hne]|[e ->]]; [|done].
  intros [= <- <-]. eauto.
Qed.

Lemma build_workbook_ok (md csv out : path) (d : date) (now : datetime)
    (fs : FS) (text ctext : string) :
  lookup_path fs md = Some (TextFile text) →
  lookup_path fs csv = Some (TextFile ctext) →
  writable fs out = true →
  ∃ ov fs1,
    Overview_sheet text d (new_sheet "Sheet") = inr ov ∧
    mkdir (parent out) fs = (fs1, inr ()) ∧
    build_workbook csv_reader md csv out d now fs =
    (<[out := XlsxFile (built ov (DictReader (csv_reader ctext)) now)]> fs1, inr out).
Proof.
  intros Hmd Hcsv Hw.
  destruct (build_workbook_read md csv out d now fs text ctext Hmd Hcsv)
    as (ov & Hov & ->).
  destruct (write_out_ok (built ov (DictReader (csv_reader ctext)) now) out fs Hw)
    as (fs1 & H1 & ->).
  by exists ov, fs1.
Qed.

Lemma build_workbook_inv (md csv out : path) (d : date) (now : datetime)
    (fs fs' : FS) (p : path) :
  build_workbook csv_reader md csv out d now fs = (fs', inr p) →
  p = out ∧ out ≠ [] ∧
  ∃ text ctext ov fs1,
    lookup_path fs md = Some (TextFile text) ∧
    lookup_path fs csv = Some (TextFile ctext) ∧
    Overview_sheet text d (new_sheet "Sheet") = inr ov ∧
    mkdir (parent out) fs = (fs1, inr ()) ∧
    fs' = <[out := XlsxFile (built ov (DictReader (csv_reader ctext)) now)]> fs1.
Proof.
  intros Hrun.
  destruct (read_file_cases md fs) as [(text & Hmd & _)|(e & _ & Hne & _)].
  2:{ destruct (build_workbook_unread md csv out d now fs (or_introl Hne))
        as (e' & He' & _). specialize (He' now). congruence. }
  destruct (read_file_cases csv fs) as [(ctext & Hcsv & _)|(e & _ & Hne & _)].
  2:{ destruct (build_workbook_unread md csv out d now fs (or_intror Hne))
        as (e' & He' & _). specialize (He' now). congruence. }
  destruct (build_workbook_read md csv out d now fs text ctext Hmd Hcsv)
    as (ov & Hov & Hb).
  rewrite Hb in Hrun. apply write_out_inv in Hrun as (-> & Hne & fs1 & H1 & ->).
  split; [done|]. split; [done|]. by exists text, ctext, ov, fs1.
Qed.

(** Past the two reads, no step reports a missing file. *)
Lemma write_out_not_FileNotFoundError (wb : Workbook) (out : path) (fs : FS)
    (m : string) :
  (write_out wb out fs).2 ≠ inl (FileNotFoundError m).
Proof.
  unfold write_out.
  pose proof (mkdir_not_FileNotFoundError (parent out) fs m) as Hm.
  destruct (mkdir (parent out) fs) as [fs1 [e|u]] eqn:H1.
  { simpl in *. intros [= ->]. by apply Hm. }
  apply mkdir_is_dir in H1.
  destruct (save wb out fs1) as [fs2 [e|u']] eqn:H2; [|done].
  simpl. intros [= ->]. apply save_FileNotFoundError in H2. congruence.
Qed.

Lemma build_workbook_FileNotFoundError (md csv out : path) (d : date)
    (now : datetime) (fs : FS) (m : string) :
  (build_workbook csv_reader md csv out d now fs).2 = inl (FileNotFoundError m) →
  lookup_path fs md = None ∨ lookup_path fs csv = None.
Proof.
  intros Hrun.
  destruct (read_file_cases md fs) as [(text & Hmd & _)|(e & _ & Hne & _)].
  2:{ destruct (build_workbook_unread md csv out d now fs (or_introl Hne))
        as (e' & He' & Hfnf). rewrite (He' now) in Hrun. simpl in Hrun.
      injection Hrun as ->. by eapply Hfnf. }
  destruct (read_file_cases csv fs) as [(ctext & Hcsv & _)|(e & _ & Hne & _)].
  2:{ destruct (build_workbook_unread md csv out d now fs (or_intror Hne))
        as (e' & He' & Hfnf). rewrite (He' now) in Hrun. simpl in Hrun.
      injection Hrun as ->. by eapply Hfnf. }
  destruct (build_workbook_read md csv out d now fs text ctext Hmd Hcsv)
    as (ov & _ & Hb).
  rewrite Hb in Hrun. by apply write_out_not_FileNotFoundError in Hrun.
Qed.

(** The file system after a run: directories made above the output, and
    the workbook at the output when the run returns. *)
Lemma write_out_frame (wb : Workbook) (out : path) (fs : FS) :
  let run := write_out wb out fs in
  (∀ q, q ≠ out → run.1 !! q = fs !! q ∨
        (q `suffix_of` parent out ∧ q ≠ [] ∧ fs !! q = None ∧ run.1 !! q = Some Dir)) ∧
  (∀ p, run.2 = inr p → p = out ∧ run.1 !! out = Some (XlsxFile wb)) ∧
  ((∀ p, run.2 ≠ inr p) → run.1 !! out = fs !! out).
Proof.
  unfold write_out.
  pose proof (mkdir_frame (parent out) fs) as Hf.
  destruct (mkdir (parent out) fs) as [fs1 [e|u]] eqn:H1; simpl in *.
  - split; [intros q _; apply Hf|]. split; [done|]. intros _.
    destruct (Hf out) as [E|(S & _)]; [done|].
    apply suffix_length in S. destruct out; simpl in *; [done|lia].
  - assert (fs1 !! out = fs !! out) as Hout.
    { destruct (Hf out) as [E|(S & N & _)]; [done|].
      apply suffix_length in S. destruct out; simpl in *; [done|lia]. }
    rewrite save_cases. destruct (save_error fs1 out) as [e|]; simpl.
    + split; [intros q _; apply Hf|]. split; [done|]. done.
    + split; [|split].
      * intros q Hq. rewrite lookup_insert_ne by done. apply Hf.
      * intros p [= <-]. by rewrite lookup_insert_eq.
      * intros Hno. by destruct (Hno out).
Qed.

End Runs.

(** ** Sheets by name *)

Lemma title_Scores_sheet : title Scores_sheet = "Scores".
Proof. vm_compute. reflexivity. Qed.

Lemma title_Recommendations_sheet : title Recommendations_sheet = "Recommendations".
Proof. vm_compute. reflexivity. Qed.

Lemma title_Roadmap_sheet : title Roadmap_sheet = "Roadmap".
Proof. vm_compute. reflexivity. Qed.

Lemma title_SupportCases_sheet (support_cases : list dict) :
  title (SupportCases_sheet support_cases) = "SupportCases".
Proof.
  destruct support_cases as [|first rest]; [done|].
  apply (SupportCases_sheet_cons first rest).
Qed.

Lemma title_Overview_sheet (architecture_md : string) (assessment_date : date)
    (ov : Worksheet) :
  Overview_sheet architecture_md assessment_date (new_sheet "Sheet") = inr ov →
  title ov = "Overview".
Proof.
  destruct (Overview_sheet_ok architecture_md assessment_date) as (ws & -> & Ht & _).
  by intros [= <-].
Qed.

Lemma sheet_named_built (ov : Worksheet) (support_cases : list dict) (now : datetime) :
  title ov = "Overview" →
  let wb := built ov support_cases now in
  sheet_named "Overview" wb = Some ov ∧
  sheet_named "Scores" wb = Some Scores_sheet ∧
  sheet_named "Recommendations" wb = Some Recommendations_sheet ∧
  sheet_named "Roadmap" wb = Some Roadmap_sheet ∧
  sheet_named "SupportCases" wb = Some (SupportCases_sheet support_cases).
Proof.
  intros Hov wb. subst wb. unfold sheet_named, built.
  cbn [sheets List.find].
  rewrite Hov, title_Scores_sheet, title_Recommendations_sheet, title_Roadmap_sheet,
    title_SupportCases_sheet.
  repeat split; reflexivity.
Qed.


(** ** The cells of a sheet form a rectangle *)

Lemma elem_of_rect (r c rows cols : Z) :
  (r, c) ∈ rect rows cols ↔ 1 ≤ r ≤ rows ∧ 1 ≤ c ≤ cols.
Proof.
  unfold rect. rewrite list_elem_of_bind. split.
  - intros (r' & Hc & Hr). apply list_elem_of_bind in Hc as (c' & Hrc & Hc).
    apply list_elem_of_singleton in Hrc as [= -> ->].
    apply elem_of_seqZ in Hr, Hc. lia.
  - intros [Hr Hc]. exists r. split; [|apply elem_of_seqZ; lia].
    apply list_elem_of_bind. exists c. split; [by apply list_elem_of_singleton|].
    apply elem_of_seqZ. lia.
Qed.

Lemma cells_in_rect (ws : Worksheet) (rows cols : Z) :
  dom (values_of ws) = list_to_set (rect rows cols) →
  ∀ r c, is_Some (cell_value ws r c) ↔ 1 ≤ r ≤ rows ∧ 1 ≤ c ≤ cols.
Proof.
  intros Hdom r c. unfold cell_value.
  by rewrite <- elem_of_dom, Hdom, elem_of_list_to_set, elem_of_rect.
Qed.

Lemma Scores_sheet_cells (r c : Z) :
  is_Some (cell_value Scores_sheet r c) ↔ 1 ≤ r ≤ 1 + len scores ∧ 1 ≤ c ≤ 3.
Proof. apply cells_in_rect. vm_compute. reflexivity. Qed.




(** ** The Scores sheet *)

Lemma conditional_formatting_Scores_sheet :
  conditional_formatting Scores_sheet =
  (λ rule, ("B2:B7", rule)) <$> score_rules.
Proof. vm_compute. reflexivity. Qed.

Lemma score_rules_apply (v : Z) :
  (λ rule, rule_applies rule v) <$> score_rules =
  [bool_decide (v < 60); bool_decide (60 ≤ v ≤ 79); bool_decide (80 ≤ v)].
Proof. reflexivity. Qed.

Lemma applying_rules_Scores_sheet (v : Z) :
  length (applying_rules Scores_sheet v) = 1%nat.
Proof.
  unfold applying_rules. rewrite conditional_formatting_Scores_sheet.
  unfold score_rules. cbn [fmap list_fmap List.filter snd].
  change (rule_applies {| operator := "lessThan"; formula := ["60"];
                          rule_fill := _ |} v) with (bool_decide (v < 60)).
  change (rule_applies {| operator := "between"; formula := ["60"; "79"];
                          rule_fill := _ |} v) with (bool_decide (60 ≤ v ≤ 79)).
  change (rule_applies {| operator := "greaterThanOrEqual"; formula := ["80"];
                          rule_fill := _ |} v) with (bool_decide (80 ≤ v)).
  repeat case_bool_decide; simpl; lia.
Qed.

(** * The claims of the specification *)

Section Claims.

Variable csv_reader : string → list (list string).





(** C3.  Whatever the inputs of two runs that return, the Scores,
    Recommendations and Roadmap sheets of the two saved workbooks are
    the same sheets, cell for cell. *)
Theorem static_sheets (md1 csv1 out1 md2 csv2 out2 : path) (d1 d2 : date)
    (now1 now2 : datetime) (fs1 fs2 fs1' fs2' : FS) (p1 p2 : path) :
  build_workbook csv_reader md1 csv1 out1 d1 now1 fs1 = (fs1', inr p1) →
  build_workbook csv_reader md2 csv2 out2 d2 now2 fs2 = (fs2', inr p2) →
  ∃ wb1 wb2,
    fs1' !! p1 = Some (XlsxFile wb1) ∧
    fs2' !! p2 = Some (XlsxFile wb2) ∧
    ∀ name, name ∈ ["Scores"; "Recommendations"; "Roadmap"] →
            is_Some (sheet_named name wb1) ∧
            sheet_named name wb1 = sheet_named name wb2.
Proof.
  intros H1 H2.
  apply build_workbook_inv in H1
    as (-> & _ & text1 & ctext1 & ov1 & g1 & _ & _ & Hov1 & _ & ->).
  apply build_workbook_inv in H2
    as (-> & _ & text2 & ctext2 & ov2 & g2 & _ & _ & Hov2 & _ & ->).
  eexists _, _. split; [apply lookup_insert_eq|]. split; [apply lookup_insert_eq|].
  apply title_Overview_sheet in Hov1, Hov2.
  destruct (sheet_named_built ov1 (DictReader (csv_reader ctext1)) now1 Hov1)
    as (_ & Hs1 & Hr1 & Hm1 & _).
  destruct (sheet_named_built ov2 (DictReader (csv_reader ctext2)) now2 Hov2)
    as (_ & Hs2 & Hr2 & Hm2 & _).
  intros name Hname.
  repeat (apply elem_of_cons in Hname as [->|Hname]);
    [| | |by apply elem_of_nil in Hname].
  - by rewrite Hs1, Hs2.
  - by rewrite Hr1, Hr2.
  - by rewrite Hm1, Hm2.
Qed.

(** C6.  The Scores sheet of every saved workbook lists the five pillars
    and the Overall row with their literal scores, and carries three
    conditional formats over B2:B7: less than 60, between 60 and 79,
    at least 80.  Exactly one of them applies to any integer score. *)
Theorem scores_sheet_fixed (md csv out : path) (d : date) (now : datetime)
    (fs fs' : FS) (p : path) :
  build_workbook csv_reader md csv out d now fs = (fs', inr p) →
  ∃ wb ws,
    fs' !! p = Some (XlsxFile wb) ∧
    sheet_named "Scores" wb = Some ws ∧
    grid_values ws 7 3 =
      [ [Some (VStr "Pillar"); Some (VStr "Score"); Some (VStr "Status")];
        [Some (VStr "Reliability"); Some (VInt 68); Some (VStr "Fair")];
        [Some (VStr "Security"); Some (VInt 74); Some (VStr "Good")];
        [Some (VStr "Cost Optimization"); Some (VInt 64); Some (VStr "Fair")];
        [Some (VStr "Operational Excellence"); Some (VInt 66); Some (VStr "Fair")];
        [Some (VStr "Performance Efficiency"); Some (VInt 78); Some (VStr "Good")];
        [Some (VStr "Overall"); Some (VInt 70);
         Some (VStr "Good baseline, needs hardening")] ] ∧
    (∀ r c, is_Some (cell_value ws r c) ↔ 1 ≤ r ≤ 7 ∧ 1 ≤ c ≤ 3) ∧
    (λ fr, (fr.1, operator fr.2, formula fr.2)) <$> conditional_formatting ws =
      [ ("B2:B7", "lessThan", ["60"]);
        ("B2:B7", "between", ["60"; "79"]);
        ("B2:B7", "greaterThanOrEqual", ["80"]) ] ∧
    ∀ v : Z, length (applying_rules ws v) = 1%nat.
Proof.
  intros Hrun.
  apply build_workbook_inv in Hrun
    as (-> & _ & text & ctext & ov & fs1 & _ & _ & Hov & _ & ->).
  apply title_Overview_sheet in Hov.
  destruct (sheet_named_built ov (DictReader (csv_reader ctext)) now Hov)
    as (_ & Hs & _).
  eexists _, _. split; [apply lookup_insert_eq|]. split; [exact Hs|].
  split; [vm_compute; reflexivity|].
  split; [apply Scores_sheet_cells|].
  split; [vm_compute; reflexivity|].
  apply applying_rules_Scores_sheet.
Qed.


(** C7, as amended.  Two runs on the same inputs that read the clock at
    [now1] and [now2] end alike, leave the same file system away from
    the output path, and save workbooks that differ at most in the
    [created] property, which holds the reading of each run. *)
Theorem runs_differ_in_created (md csv out : path) (d : date)
    (now1 now2 : datetime) (fs : FS) :
  let run1 := build_workbook csv_reader md csv out d now1 fs in
  let run2 := build_workbook csv_reader md csv out d now2 fs in
  run1.2 = run2.2 ∧
  (∀ q, q ≠ out → run1.1 !! q = run2.1 !! q) ∧
  erase_created <$> run1.1 !! out = erase_created <$> run2.1 !! out ∧
  (∀ p, run1.2 = inr p →
        ∃ wb1 wb2,
          run1.1 !! out = Some (XlsxFile wb1) ∧
          run2.1 !! out = Some (XlsxFile wb2) ∧
          properties wb1 =
            {| doc_title := Some "Azure WAF Assessment"; created := Some now1 |} ∧
          properties wb2 =
            {| doc_title := Some "Azure WAF Assessment"; created := Some now2 |} ∧
          sheets wb1 = sheets wb2).
Proof.
  intros run1 run2. subst run1 run2.
  assert ((∃ e, ∀ now, build_workbook csv_reader md csv out d now fs = (fs, inl e)) ∨
          (∃ ov cases, ∀ now, build_workbook csv_reader md csv out d now fs =
                              write_out (built ov cases now) out fs)) as [[e He]|Hb].
  { destruct (read_file_cases md fs) as [(text & Hmd & _)|(e & _ & Hne & _)].
    2:{ left. destruct (build_workbook_unread csv_reader md csv out d now1 fs
                          (or_introl Hne)) as (e' & He' & _). eauto. }
    destruct (read_file_cases csv fs) as [(ctext & Hcsv & _)|(e & _ & Hne & _)].
    2:{ left. destruct (build_workbook_unread csv_reader md csv out d now1 fs
                          (or_intror Hne)) as (e' & He' & _). eauto. }
    right.
    destruct (Overview_sheet_ok text d) as (ws & Hws & _).
    exists ws, (DictReader (csv_reader ctext)). intros now.
    destruct (build_workbook_read csv_reader md csv out d now fs text ctext Hmd Hcsv)
      as (ov & Hov & ->). congruence. }
  - rewrite !He. simpl. by repeat split.
  - destruct Hb as (ov & cases & Hb). rewrite !Hb. unfold write_out.
    destruct (mkdir (parent out) fs) as [fs1 [e|u]]; [by repeat split|].
    rewrite !save_cases. destruct (save_error fs1 out) as [e|]; [by repeat split|].
    simpl. split; [done|]. split.
    { intros q Hq. by rewrite !lookup_insert_ne. }
    rewrite !lookup_insert_eq. split; [done|].
    intros p _. by eexists _, _.
Qed.

(** C8, as amended.  A run changes the file system in two ways only: it
    makes the directories above the output path that are missing, and,
    when it returns, it has written the workbook at the output path; it
    returns that path.  Every other path holds what it held before. *)
Theorem filesystem_frame (md csv out : path) (d : date) (now : datetime) (fs : FS) :
  let run := build_workbook csv_reader md csv out d now fs in
  (∀ q, q ≠ out →
        run.1 !! q = fs !! q ∨
        (q `suffix_of` parent out ∧ q ≠ [] ∧ fs !! q = None ∧ run.1 !! q = Some Dir)) ∧
  (∀ p, run.2 = inr p → p = out ∧ ∃ wb, run.1 !! out = Some (XlsxFile wb)) ∧
  ((∀ p, run.2 ≠ inr p) → run.1 !! out = fs !! out).
Proof.
  intros run. subst run.
  destruct (read_file_cases md fs) as [(text & Hmd & _)|(e & _ & Hne & _)].
  2:{ destruct (build_workbook_unread csv_reader md csv out d now fs (or_introl Hne))
        as (e' & He' & _). rewrite He'. simpl. split; [by left|]. by split. }
  destruct (read_file_cases csv fs) as [(ctext & Hcsv & _)|(e & _ & Hne & _)].
  2:{ destruct (build_workbook_unread csv_reader md csv out d now fs (or_intror Hne))
        as (e' & He' & _). rewrite He'. simpl. split; [by left|]. by split. }
  destruct (build_workbook_read csv_reader md csv out d now fs text ctext Hmd Hcsv)
    as (ov & _ & ->).
  destruct (write_out_frame (built ov (DictReader (csv_reader ctext)) now) out fs)
    as (H1 & H2 & H3).
  split; [exact H1|]. split; [|exact H3].
  intros p Hp. destruct (H2 p Hp) as [-> Hout]. split; [done|]. by eexists.
Qed.

Lemma main_cases (ROOT : path) (today : date) (now : datetime) (fs : FS) :
  let mid := ROOT </> ".github" </> "skills" </> "waf-assessment" </> "mid" in
  let md := mid </> "architecture_document.md" in
  let csv := mid </> "azure_support_cases.csv" in
  let out := mid </> "waf_assessment_results.xlsx" in
  main csv_reader ROOT today now fs =
  if bool_decide (is_Some (lookup_path fs md)) then
    if bool_decide (is_Some (lookup_path fs csv)) then
      (p ← build_workbook csv_reader md csv out today now; mret [path_str p]) fs
    else (fs, inl (FileNotFoundError
                     ("Missing support cases CSV: " +:+ path_str csv)))
  else (fs, inl (FileNotFoundError ("Missing architecture doc: " +:+ path_str md))).
Proof.
  intros mid md csv out. unfold main. fold mid md csv out.
  unfold mbind at 1, io_bind at 1, path_exists at 1.
  destruct (bool_decide (is_Some (lookup_path fs md))); [|done]. cbn [negb].
  unfold mbind at 1, io_bind at 1, path_exists at 1.
  by destruct (bool_decide (is_Some (lookup_path fs csv))).
Qed.

(** C4.  [main] raises [FileNotFoundError] exactly when the architecture
    document or the support-cases CSV does not exist, and then leaves the
    file system as it was; when both exist it does what [build_workbook]
    does on the three paths and prints the path returned, passing on
    whatever [build_workbook] raises. *)
Theorem main_FileNotFoundError (ROOT : path) (today : date) (now : datetime)
    (fs : FS) :
  let mid := ROOT </> ".github" </> "skills" </> "waf-assessment" </> "mid" in
  let md := mid </> "architecture_document.md" in
  let csv := mid </> "azure_support_cases.csv" in
  let out := mid </> "waf_assessment_results.xlsx" in
  let missing := lookup_path fs md = None ∨ lookup_path fs csv = None in
  ((∃ m, (main csv_reader ROOT today now fs).2 = inl (FileNotFoundError m)) ↔ missing) ∧
  (missing → (main csv_reader ROOT today now fs).1 = fs) ∧
  (¬ missing →
   main csv_reader ROOT today now fs =
   (p ← build_workbook csv_reader md csv out today now; mret [path_str p]) fs).
Proof.
  intros mid md csv out missing. subst missing.
  rewrite (main_cases ROOT today now fs). fold mid md csv out.
  destruct (lookup_path fs md) as [nmd|] eqn:Hmd.
  2:{ rewrite bool_decide_eq_false_2 by (by intros [? ?]).
      split; [split; [by left|intros _; by eexists]|]. split; [done|].
      intros H. destruct H. by left. }
  rewrite bool_decide_eq_true_2 by (by eexists).
  destruct (lookup_path fs csv) as [ncsv|] eqn:Hcsv.
  2:{ rewrite bool_decide_eq_false_2 by (by intros [? ?]).
      split; [split; [by right|intros _; by eexists]|]. split; [done|].
      intros H. destruct H. by right. }
  rewrite bool_decide_eq_true_2 by (by eexists).
  split; [|split; [by intros [?|?]|done]].
  split; [|by intros [?|?]].
  intros [m Hm]. exfalso.
  unfold mbind, io_bind in Hm.
  destruct (build_workbook csv_reader md csv out today now fs) as [fs' [e|p]] eqn:Hrun;
    [|done].
  simpl in Hm. injection Hm as ->.
  destruct (build_workbook_FileNotFoundError csv_reader md csv out today now fs m);
    [by rewrite Hrun|congruence..].
Qed.


End Claims.

(** * The claims at sample inputs *)

Lemma sample_readable (csv_text : string) :
  lookup_path (sample_fs csv_text) sample_md = Some (TextFile "# Architecture") ∧
  lookup_path (sample_fs csv_text) sample_csv = Some (TextFile csv_text) ∧
  writable (sample_fs csv_text) sample_out = true.
Proof. repeat split; vm_compute; reflexivity. Qed.






Lemma sample_run_returns (csv_text : string) (now : datetime) :
  ∃ fs', sample_run csv_text now = (fs', inr sample_out).
Proof.
  destruct (sample_readable csv_text) as (Hmd & Hcsv & Hw).
  destruct (build_workbook_ok plain_csv_reader sample_md sample_csv sample_out
              sample_date now (sample_fs csv_text) _ _ Hmd Hcsv Hw)
    as (ov & fs1 & _ & _ & Hrun).
  by eexists.
Qed.

Lemma static_sheets_witness :
  ∃ fs1' fs2' wb1 wb2,
    sample_run two_cases 0 = (fs1', inr sample_out) ∧
    sample_run header_only 7 = (fs2', inr sample_out) ∧
    fs1' !! sample_out = Some (XlsxFile wb1) ∧
    fs2' !! sample_out = Some (XlsxFile wb2) ∧
    ∀ name, name ∈ ["Scores"; "Recommendations"; "Roadmap"] →
            is_Some (sheet_named name wb1) ∧
            sheet_named name wb1 = sheet_named name wb2.
Proof.
  destruct (sample_run_returns two_cases 0) as [fs1' H1].
  destruct (sample_run_returns header_only 7) as [fs2' H2].
  destruct (static_sheets plain_csv_reader
              sample_md sample_csv sample_out sample_md sample_csv sample_out
              sample_date sample_date 0 7 (sample_fs two_cases) (sample_fs header_only)
              fs1' fs2' sample_out sample_out H1 H2) as (wb1 & wb2 & Hw1 & Hw2 & Hs).
  by exists fs1', fs2', wb1, wb2.
Defined.

Lemma scores_sheet_fixed_witness :
  ∃ fs' wb ws,
    sample_run two_cases 0 = (fs', inr sample_out) ∧
    fs' !! sample_out = Some (XlsxFile wb) ∧
    sheet_named "Scores" wb = Some ws ∧
    ∀ v : Z, length (applying_rules ws v) = 1%nat.
Proof.
  destruct (sample_run_returns two_cases 0) as [fs' Hrun].
  destruct (scores_sheet_fixed plain_csv_reader sample_md sample_csv sample_out
              sample_date 0 (sample_fs two_cases) fs' sample_out Hrun)
    as (wb & ws & Hwb & Hws & _ & _ & _ & Hone).
  by exists fs', wb, ws.
Defined.


(** C7 as stated fails: the same inputs with the clock read a microsecond
    later give another workbook. *)
Lemma runs_identical_counterexample :
  sample_run two_cases 0 ≠ sample_run two_cases 1.
Proof.
  destruct (sample_readable two_cases) as (Hmd & Hcsv & Hw).
  unfold sample_run.
  destruct (build_workbook_ok plain_csv_reader sample_md sample_csv sample_out
              sample_date 0 (sample_fs two_cases) _ _ Hmd Hcsv Hw)
    as (ov0 & fs0 & _ & _ & ->).
  destruct (build_workbook_ok plain_csv_reader sample_md sample_csv sample_out
              sample_date 1 (sample_fs two_cases) _ _ Hmd Hcsv Hw)
    as (ov1 & fs1 & _ & _ & ->).
  intros [= H].
  apply (f_equal (λ fs : FS, match fs !! sample_out with
                             | Some (XlsxFile wb) => created (properties wb)
                             | _ => None
                             end)) in H.
  rewrite !lookup_insert_eq in H. discriminate H.
Qed.

Lemma runs_differ_in_created_witness :
  ∃ wb1 wb2,
    (sample_run two_cases 0).1 !! sample_out = Some (XlsxFile wb1) ∧
    (sample_run two_cases 1).1 !! sample_out = Some (XlsxFile wb2) ∧
    created (properties wb1) = Some 0 ∧
    created (properties wb2) = Some 1 ∧
    sheets wb1 = sheets wb2.
Proof.
  destruct (runs_differ_in_created plain_csv_reader sample_md sample_csv sample_out
              sample_date 0 1 (sample_fs two_cases)) as (_ & _ & _ & H).
  destruct (sample_run_returns two_cases 0) as [fs' Hrun].
  destruct (H sample_out) as (wb1 & wb2 & H1 & H2 & P1 & P2 & Hs).
  { fold (sample_run two_cases 0). by rewrite Hrun. }
  exists wb1, wb2. rewrite P1, P2. by repeat split.
Defined.

Lemma only_output_written_at_parent :
  (sample_run two_cases 0).1 !! parent sample_out ≠ sample_fs two_cases !! parent sample_out.
Proof.
  destruct (sample_readable two_cases) as (Hmd & Hcsv & Hw).
  unfold sample_run.
  destruct (build_workbook_ok plain_csv_reader sample_md sample_csv sample_out
              sample_date 0 (sample_fs two_cases) _ _ Hmd Hcsv Hw)
    as (ov & fs1 & _ & Hmk & ->).
  apply mkdir_is_dir in Hmk. unfold is_dir in Hmk.
  cbn [fst]. rewrite lookup_insert_ne by done.
  change (lookup_path fs1 (parent sample_out)) with (fs1 !! parent sample_out) in Hmk.
  destruct (fs1 !! parent sample_out) as [[]|]; try done.
Qed.

(** C8 as stated fails: the directory of the output path did not exist
    before the run and is there after it. *)
Lemma only_output_written_counterexample :
  ∃ q, q ≠ sample_out ∧
       (sample_run two_cases 0).1 !! q ≠ sample_fs two_cases !! q.
Proof.
  exists (parent sample_out). split; [done|].
  apply only_output_written_at_parent.
Qed.

Lemma filesystem_frame_witness :
  (sample_run two_cases 0).1 !! sample_md = sample_fs two_cases !! sample_md ∧
  (sample_run two_cases 0).1 !! parent sample_out = Some Dir ∧
  ∃ wb, (sample_run two_cases 0).1 !! sample_out = Some (XlsxFile wb).
Proof.
  destruct (filesystem_frame plain_csv_reader sample_md sample_csv sample_out
              sample_date 0 (sample_fs two_cases)) as (Hframe & Hret & _).
  split; [|split].
  - destruct (Hframe sample_md) as [H|(_ & _ & H & _)]; [done|exact H|].
    vm_compute in H. discriminate.
  - destruct (Hframe (parent sample_out)) as [H|(_ & _ & _ & H)]; [done| |exact H].
    exfalso. revert H. apply only_output_written_at_parent.
  - destruct (sample_run_returns two_cases 0) as [fs' Hrun].
    destruct (Hret sample_out) as [_ H]; [|exact H].
    fold (sample_run two_cases 0). by rewrite Hrun.
Defined.

Lemma main_FileNotFoundError_witness :
  (∃ m, (main plain_csv_reader sample_root sample_date 0 ∅).2 =
        inl (FileNotFoundError m)) ∧
  main plain_csv_reader sample_root sample_date 0 main_fs =
  (p ← build_workbook plain_csv_reader
         (sample_mid </> "architecture_document.md")
         (sample_mid </> "azure_support_cases.csv")
         (sample_mid </> "waf_assessment_results.xlsx") sample_date 0;
   mret [path_str p]) main_fs.
Proof.
  split.
  - apply (main_FileNotFoundError plain_csv_reader sample_root sample_date 0 ∅).
    left. vm_compute. reflexivity.
  - apply (main_FileNotFoundError plain_csv_reader sample_root sample_date 0 main_fs).
    intros [H|H]; vm_compute in H; discriminate.
Defined.

